(** * InputComponent (input/input.component.ts): value sanitisation and
      interaction state of the [lm-ui-input] form control.

    The component is embedded shallowly: its fields become a record, its
    methods become functions on that record which also return the calls made
    to the outside (the DOM element, the change detector, the registered
    form callback and the [valueChange] emitter), and the two reactive
    pipelines of [initializeSubscriptions] become the functions run by
    [valueStream_next] and by the debounced [commitProperties] timer.

    The ECMAScript built-ins the methods call ([String.prototype.replace]
    with the pattern [/[^\d]/g], [substr], [Number], [Number.prototype.toString],
    [Array.prototype.join], [||], [!==]) are modelled in the first part:
    strings as sequences of UTF-16 code units, Numbers as binary64 values
    ([spec_float]), [Number(string)] as StringToNumber with correct
    rounding, and [toString] as the shortest digits that read back as the
    same Number.

    What stays outside the model: the template (the input element is a
    store for the string last assigned or typed, empty at first), the
    handlers that [focus()], [detectChanges()], the form callback and the
    emitter run in turn (they are recorded as calls), and bound values of
    [maxLength] that are not integers. *)

From Stdlib Require Import ZArith NArith PArith QArith Qabs Qround Qpower List Bool Lia.
From Stdlib Require Import Strings.String Strings.Ascii.
From Stdlib Require Import Floats.SpecFloat.
Import ListNotations.

Local Open Scope Z_scope.

(** ** ECMAScript strings

    A string value is a sequence of UTF-16 code units; [length] counts code
    units and [substr] cuts between them. *)
Module JS.

Definition code_unit := N.
Definition jsstring := list code_unit.

(** A literal of the source, written with ASCII characters only. *)
Definition lit (s : string) : jsstring :=
  List.map N_of_ascii (list_ascii_of_string s).

Definition cu_eqb (a b : code_unit) : bool := N.eqb a b.

Fixpoint str_eqb (a b : jsstring) : bool :=
  match a, b with
  | [], [] => true
  | x :: a', y :: b' => cu_eqb x y && str_eqb a' b'
  | _, _ => false
  end.

(** [\d] : the ten code units U+0030 .. U+0039 and nothing else. *)
Definition is_digit (c : code_unit) : bool :=
  (N.leb 48 c && N.leb c 57)%N.

(** [s.replace(/[^\d]/g, '')] *)
Definition strip_non_digits (s : jsstring) : jsstring :=
  List.filter is_digit s.

(** [s.substr(0, n)] for an integral [n]: a negative length counts as 0 and
    a length past the end stops at the end. *)
Definition substr0 (s : jsstring) (n : Z) : jsstring :=
  List.firstn (Z.to_nat n) s.

(** [xs.join(sep)] for an array of strings. *)
Fixpoint join (sep : jsstring) (xs : list jsstring) : jsstring :=
  match xs with
  | [] => []
  | [x] => x
  | x :: rest => x ++ sep ++ join sep rest
  end.

(** *** Booleans that may be [undefined]

    A field declared [boolean] without an initialiser reads as [undefined]
    until it is first assigned.  [None] stands for [undefined]. *)
Definition jsbool := option bool.

Definition truthy (b : jsbool) : bool :=
  match b with Some true => true | _ => false end.

(** [a || b] : the first operand when it is truthy, else the second. *)
Definition js_or (a b : jsbool) : jsbool :=
  if truthy a then a else b.

(** [a !== b] on such values. *)
Definition strict_neq (a b : jsbool) : bool :=
  match a, b with
  | None, None => false
  | Some x, Some y => negb (Bool.eqb x y)
  | _, _ => true
  end.

(** ** Number values (IEEE 754 binary64) *)

Definition prec : Z := 53.
Definition emax : Z := 1024.

Definition number := spec_float.

Definition pow10 (n : Z) : positive := Z.to_pos (10 ^ n).

(** The Number value for the real [m * 10^e] ([m > 0]), rounded to
    nearest, ties to even.  For [e >= 0] the integer is rounded; for
    [e < 0] the quotient of two integers is rounded once. *)
Definition number_of_decimal (neg : bool) (m : positive) (e : Z) : number :=
  if 0 <=? e
  then binary_round prec emax neg (m * pow10 e)%positive 0
  else SFdiv prec emax (S754_finite neg m 0) (S754_finite false (pow10 (- e)) 0).

(** *** StringToNumber *)

(** WhiteSpace and LineTerminator code units (StrWhiteSpaceChar). *)
Definition is_ws (c : code_unit) : bool :=
  (List.existsb (N.eqb c)
     [0x9; 0xA; 0xB; 0xC; 0xD; 0x20; 0xA0; 0x1680; 0x2028; 0x2029;
      0x202F; 0x205F; 0x3000; 0xFEFF]
   || (N.leb 0x2000 c && N.leb c 0x200A))%N.

Fixpoint drop_ws (s : jsstring) : jsstring :=
  match s with
  | c :: s' => if is_ws c then drop_ws s' else s
  | [] => []
  end.

Definition trim (s : jsstring) : jsstring :=
  List.rev (drop_ws (List.rev (drop_ws s))).

(** Splits off the longest prefix of code units satisfying [p]. *)
Fixpoint span (p : code_unit -> bool) (s : jsstring) : jsstring * jsstring :=
  match s with
  | c :: s' =>
      if p c then let '(a, b) := span p s' in (c :: a, b) else ([], s)
  | [] => ([], [])
  end.

(** Value of a digit in a radix up to 16, [None] when the code unit is not
    a digit of that radix. *)
Definition digit_value (radix : N) (c : code_unit) : option N :=
  let v :=
    if (N.leb 48 c && N.leb c 57)%N then Some (c - 48)%N
    else if (N.leb 97 c && N.leb c 102)%N then Some (c - 87)%N
    else if (N.leb 65 c && N.leb c 70)%N then Some (c - 55)%N
    else None in
  match v with
  | Some d => if (d <? radix)%N then Some d else None
  | None => None
  end.

(** Mathematical value of a sequence of digits, [None] when a code unit is
    not a digit of the radix. *)
Fixpoint digits_value (radix : N) (acc : N) (s : jsstring) : option N :=
  match s with
  | [] => Some acc
  | c :: s' =>
      match digit_value radix c with
      | Some d => digits_value radix (acc * radix + d)%N s'
      | None => None
      end
  end.

Definition dec_value (s : jsstring) : N :=
  match digits_value 10 0 s with Some v => v | None => 0%N end.

(** The Number value of a non-negative integer. *)
Definition number_of_N (neg : bool) (v : N) : number :=
  match v with
  | N0 => S754_zero neg
  | Npos m => number_of_decimal neg m 0
  end.

(** NonDecimalIntegerLiteral: [0x], [0o], [0b] prefixes, no sign. *)
Definition parse_non_decimal (s : jsstring) : option number :=
  match s with
  | 48%N :: p :: ((_ :: _) as ds) =>
      let radix :=
        if (N.eqb p 120 || N.eqb p 88)%N then Some 16%N
        else if (N.eqb p 111 || N.eqb p 79)%N then Some 8%N
        else if (N.eqb p 98 || N.eqb p 66)%N then Some 2%N
        else None in
      match radix with
      | Some r =>
          match digits_value r 0 ds with
          | Some v => Some (number_of_N false v)
          | None => None
          end
      | None => None
      end
  | _ => None
  end.

(** ExponentPart_opt at the end of a literal: the exponent, [None] when
    what is left is neither empty nor a well-formed exponent part. *)
Definition parse_exponent (s : jsstring) : option Z :=
  match s with
  | [] => Some 0
  | c :: s1 =>
      if (N.eqb c 101 || N.eqb c 69)%N then
        let '(neg, s2) :=
          match s1 with
          | 43%N :: r => (false, r)
          | 45%N :: r => (true, r)
          | _ => (false, s1)
          end in
        match s2 with
        | [] => None
        | _ :: _ =>
            match digits_value 10 0 s2 with
            | Some v => Some (if neg then - Z.of_N v else Z.of_N v)
            | None => None
            end
        end
      else None
  end.

(** StrUnsignedDecimalLiteral. *)
Definition parse_unsigned_decimal (neg : bool) (s : jsstring) : option number :=
  if str_eqb s (lit "Infinity") then Some (S754_infinity neg)
  else
    let '(ip, r1) := span is_digit s in
    let '(fp, r2) :=
      match r1 with
      | 46%N :: r => span is_digit r
      | _ => ([], r1)
      end in
    match ip ++ fp with
    | [] => None
    | _ :: _ =>
        match parse_exponent r2 with
        | Some ex =>
            match dec_value (ip ++ fp) with
            | N0 => Some (S754_zero neg)
            | Npos m => Some (number_of_decimal neg m (ex - Z.of_nat (List.length fp)))
            end
        | None => None
        end
    end.

(** StrDecimalLiteral: an optional sign, then the unsigned literal. *)
Definition parse_decimal (s : jsstring) : option number :=
  match s with
  | 43%N :: r => parse_unsigned_decimal false r
  | 45%N :: r => parse_unsigned_decimal true r
  | _ => parse_unsigned_decimal false s
  end.

(** [Number(s)] for a string [s]. *)
Definition Number (s : jsstring) : number :=
  match trim s with
  | [] => S754_zero false
  | t =>
      match parse_non_decimal t with
      | Some x => x
      | None =>
          match parse_decimal t with
          | Some x => x
          | None => S754_nan
          end
      end
  end.

(** *** Number::toString (radix 10)

    For a finite non-zero [x], integers [n], [k], [s] are chosen such that
    [k >= 1], [10^(k-1) <= s < 10^k], the Number value for [s * 10^(n-k)]
    is [x], and [k] is as small as possible; among several [s] the one
    closest to [x] is taken, and of two equally close ones the even one. *)

(** The real value of a positive finite Number. *)
Definition real_of (m : positive) (e : Z) : Q :=
  (inject_Z (Zpos m) * Qpower 2 e)%Q.

(** The pair [(s, p)] denotes the real [s * 10^p]. *)
Definition real_of_decimal (sp : Z * Z) : Q :=
  (inject_Z (fst sp) * Qpower 10 (snd sp))%Q.

(** The number [n] of a positive real: [10^(n-1) <= x < 10^n]. *)
Fixpoint magnitude_up (fuel : nat) (x : Q) (n : Z) : Z :=
  match fuel with
  | O => n
  | S f => if Qle_bool (Qpower 10 n) x then magnitude_up f x (n + 1) else n
  end.

Fixpoint magnitude_down (fuel : nat) (x : Q) (n : Z) : Z :=
  match fuel with
  | O => n
  | S f => if Qle_bool (Qpower 10 (n - 1)) x then n else magnitude_down f x (n - 1)
  end.

Definition magnitude (x : Q) : Z :=
  if Qle_bool 1 x then magnitude_up 400 x 1 else magnitude_down 400 x 0.

(** [s] has exactly [k] decimal digits. *)
Definition has_digits (k s : Z) : bool :=
  (10 ^ (k - 1) <=? s) && (s <? 10 ^ k).

(** The Number value for [s * 10^p] is the positive finite Number [(m, e)]. *)
Definition rounds_to (m : positive) (e : Z) (sp : Z * Z) : bool :=
  match fst sp with
  | Zpos s =>
      match number_of_decimal false s (snd sp) with
      | S754_finite false m' e' => Pos.eqb m' m && Z.eqb e' e
      | _ => false
      end
  | _ => false
  end.

(** The [k]-digit candidates for [x = (m, e)], where [nx] is the magnitude
    of [x]: the two multiples of [10^(nx-k)] that enclose [x], and for the
    power [10^nx] just above [x] the two multiples of [10^(nx+1-k)]. *)
Definition candidates (m : positive) (e : Z) (k : Z) : list (Z * Z) :=
  let x := real_of m e in
  let nx := magnitude x in
  List.filter (fun sp => has_digits k (fst sp) && rounds_to m e sp)
    (List.flat_map
       (fun n =>
          let p := n - k in
          let q := (x / Qpower 10 p)%Q in
          [(Qfloor q, p); (Qceiling q, p)])
       [nx; nx + 1]).

Definition distance (x : Q) (sp : Z * Z) : Q :=
  Qabs (real_of_decimal sp - x)%Q.

(** The better of two candidates: the closer one, the even one on a tie. *)
Definition closer (x : Q) (a b : Z * Z) : Z * Z :=
  match Qcompare (distance x a) (distance x b) with
  | Lt => a
  | Gt => b
  | Eq => if Z.even (fst a) then a else b
  end.

Definition best (x : Q) (cs : list (Z * Z)) : option (Z * Z) :=
  match cs with
  | [] => None
  | c :: cs' => Some (List.fold_left (closer x) cs' c)
  end.

Fixpoint shortest_from (fuel : nat) (m : positive) (e : Z) (k : Z)
  : option (Z * Z) :=
  match fuel with
  | O => None
  | S f =>
      match best (real_of m e) (candidates m e k) with
      | Some sp => Some sp
      | None => shortest_from f m e (k + 1)
      end
  end.

(** Decimal digits of a non-negative integer, most significant first.  An
    integer has no more decimal digits than bits. *)
Fixpoint digits_of (fuel : nat) (z : Z) (acc : jsstring) : jsstring :=
  match fuel with
  | O => acc
  | S f =>
      let acc' := Z.to_N (48 + z mod 10) :: acc in
      if z <? 10 then acc' else digits_of f (z / 10) acc'
  end.

Definition bits (z : Z) : nat := S (Z.to_nat (Z.log2 z)).

Definition decimal_digits (z : Z) : jsstring := digits_of (bits z) z [].

(** The exact decimal expansion [(s, p)] of [m * 2^e]: it always denotes
    [x], so the search below ends at its length at the latest. *)
Definition exact_decimal (m : positive) (e : Z) : Z * Z :=
  if 0 <=? e then (Zpos m * 2 ^ e, 0) else (Zpos m * 5 ^ (- e), e).

Fixpoint strip_zeros (fuel : nat) (s p : Z) : Z * Z :=
  match fuel with
  | O => (s, p)
  | S f => if Z.eqb (s mod 10) 0 then strip_zeros f (s / 10) (p + 1) else (s, p)
  end.

(** The digits [s] and the exponent [p = n - k] chosen for [x = (m, e)]. *)
Definition shortest (m : positive) (e : Z) : Z * Z :=
  let ex := exact_decimal m e in
  match shortest_from (bits (fst ex)) m e 1 with
  | Some sp => sp
  | None => strip_zeros (bits (fst ex)) (fst ex) (snd ex)
  end.

Definition zeros (n : Z) : jsstring := List.repeat 48%N (Z.to_nat n).

(** Steps 6 to 10 of Number::toString. *)
Definition format_decimal (s p : Z) : jsstring :=
  let ds := decimal_digits s in
  let k := Z.of_nat (List.length ds) in
  let n := p + k in
  if (k <=? n) && (n <=? 21) then ds ++ zeros (n - k)
  else if (0 <? n) && (n <=? 21) then
    List.firstn (Z.to_nat n) ds ++ lit "." ++ List.skipn (Z.to_nat n) ds
  else if (-6 <? n) && (n <=? 0) then
    lit "0." ++ zeros (- n) ++ ds
  else
    let ex := (if 0 <=? n - 1 then lit "+" else lit "-")
                ++ decimal_digits (Z.abs (n - 1)) in
    if k =? 1 then ds ++ lit "e" ++ ex
    else List.firstn 1 ds ++ lit "." ++ List.skipn 1 ds ++ lit "e" ++ ex.

(** [x.toString()] for a Number [x]. *)
Definition Number_toString (x : number) : jsstring :=
  match x with
  | S754_nan => lit "NaN"
  | S754_zero _ => lit "0"
  | S754_infinity neg => (if neg then lit "-" else []) ++ lit "Infinity"
  | S754_finite neg m e =>
      let '(s, p) := shortest m e in
      (if neg then lit "-" else []) ++ format_decimal s p
  end.

(** The mantissa and exponent of the Number value of an integer [v] below
    [2^53]: [v] shifted to 53 bits. *)
Definition small_mantissa (v : positive) : positive :=
  fst (shl_align v 0 (Zpos (digits2_pos v) - 53)).

Definition small_exponent (v : positive) : Z := Zpos (digits2_pos v) - 53.

End JS.

Import JS.

(** ** The component *)

(** Modelled from the spec: the interface [NumericInputOptions] of
    models/input/numeric-input-options.model is not among the sources; the
    data model gives it the three flags [integer], [preventEmpty] and
    [percents].  The component only tests each flag for truthiness, which is
    what the [bool] holds. *)
Record NumericInputOptions := {
  integer : bool;
  preventEmpty : bool;
  percents : bool
}.

(** The object bound to the [numeric] input, before [ngOnChanges] merges it
    over [DEFAULT_NUMERIC_OPTIONS]: the [integer] key may be absent. *)
Record NumericInputBinding := {
  bound_integer : option bool;
  bound_preventEmpty : bool;
  bound_percents : bool
}.

(** [{ ...DEFAULT_NUMERIC_OPTIONS, ...currentValue }] with
    [DEFAULT_NUMERIC_OPTIONS = { integer: true }]. *)
Definition merge_defaults (b : NumericInputBinding) : NumericInputOptions :=
  {| integer := match bound_integer b with Some i => i | None => true end;
     preventEmpty := bound_preventEmpty b;
     percents := bound_percents b |}.

(** What is pushed into [valueStream$]: [writeValue] takes [any].  A value
    that is neither [null] nor [undefined] is represented by the string its
    [toString()] returns. *)
Inductive stream_value :=
| VNull
| VUndefined
| VString (s : jsstring).

(** The calls a method makes on its collaborators, in program order. *)
Inductive call :=
| SetInputValue (value : jsstring) (decorate : bool)
| ElementFocus
| ElementSelect
| DetectChanges
| StopImmediatePropagation
| PropagateChange (fn : nat) (value : jsstring)
| ValueChangeEmit (value : jsstring).

Definition is_propagation (c : call) : bool :=
  match c with
  | PropagateChange _ _ | ValueChangeEmit _ => true
  | _ => false
  end.

(** The calls that reach the DOM event or the selection only:
    [nativeElement.select()] and [event.stopImmediatePropagation()]. *)
Definition is_dom_call (c : call) : bool :=
  match c with
  | ElementSelect | StopImmediatePropagation => true
  | _ => false
  end.

Definition is_empty (s : jsstring) : bool :=
  match s with [] => true | _ :: _ => false end.

(** *** Pure helpers of the class *)

Definition applyNumericCompliance (value : jsstring)
    (numericOptions : NumericInputOptions) : jsstring :=
  let processed := value in
  let processed :=
    if integer numericOptions then strip_non_digits processed else processed in
  let processed :=
    if negb (is_empty processed) || preventEmpty numericOptions
    then Number_toString (Number processed)
    else processed in
  processed.

Definition toPercentString (value : jsstring) : jsstring :=
  if negb (is_empty value) then value ++ lit "%" else [].

Definition getDecoratedValue (value : jsstring)
    (config_numeric : option NumericInputOptions) : jsstring :=
  match config_numeric with
  | Some o =>
      if percents o && negb (is_empty value)
      then toPercentString value
      else value
  | None => value
  end.

(** Splits a conjunction of closed facts and evaluates the equations. *)
Ltac evaluate :=
  repeat match goal with |- _ /\ _ => split end;
  try match goal with |- _ = _ => vm_compute; reflexivity end.

(** Names the fields of a component, and splits the cases of its flags. *)
Ltac component c :=
  destruct c as [cn ev ml nu er fo iv de cp cv bl fc md pc].

Ltac jsbools :=
  repeat match goal with
  | b : jsbool |- _ => destruct b as [[|]|]
  end.

Section Component.

(** The payload of a validation error ([any] in the forms API) and the
    helper [FormControlErrorFormatter.getErrorMessage], which is not among
    the sources. *)
Variable error_value : Type.
Variable getErrorMessage : jsstring -> option error_value -> jsstring.

(** [control.errors]: the own properties in the order [Object.keys] lists
    them, or [null]. *)
Record AbstractControl := {
  errors : option (list (jsstring * error_value))
}.

Record FormControlName := {
  control : option AbstractControl
}.

Record InputComponent := {
  controlName : option FormControlName;
  (* inputElement.nativeElement.value *)
  elementValue : jsstring;
  maxLength : option Z;
  numeric : option NumericInputOptions;
  error : jsstring;
  focused : jsbool;
  invalid : bool;
  (* destroy$ has emitted: takeUntil has closed both subscriptions *)
  destroyed : bool;
  (* the debounceTime(0) timer of invalidatePropertiesStream$ is armed *)
  commitPending : bool;
  currentValue : jsstring;
  inputBlurOccured : jsbool;
  inputFocusOccured : jsbool;
  mouseDownOccured : jsbool;
  propagateChange : option nat
}.

(** The component right after its constructor ran, with an empty input
    element. *)
Definition created : InputComponent :=
  {| controlName := None;
     elementValue := [];
     maxLength := None;
     numeric := None;
     error := [];
     focused := Some false;
     invalid := false;
     destroyed := false;
     commitPending := false;
     currentValue := [];
     inputBlurOccured := None;
     inputFocusOccured := None;
     mouseDownOccured := None;
     propagateChange := None |}.

Definition with_elementValue (v : jsstring) (c : InputComponent) :=
  {| controlName := controlName c; elementValue := v;
     maxLength := maxLength c; numeric := numeric c; error := error c;
     focused := focused c; invalid := invalid c; destroyed := destroyed c;
     commitPending := commitPending c; currentValue := currentValue c;
     inputBlurOccured := inputBlurOccured c;
     inputFocusOccured := inputFocusOccured c;
     mouseDownOccured := mouseDownOccured c;
     propagateChange := propagateChange c |}.

Definition with_currentValue (v : jsstring) (c : InputComponent) :=
  {| controlName := controlName c; elementValue := elementValue c;
     maxLength := maxLength c; numeric := numeric c; error := error c;
     focused := focused c; invalid := invalid c; destroyed := destroyed c;
     commitPending := commitPending c; currentValue := v;
     inputBlurOccured := inputBlurOccured c;
     inputFocusOccured := inputFocusOccured c;
     mouseDownOccured := mouseDownOccured c;
     propagateChange := propagateChange c |}.

Definition with_focused (f : jsbool) (c : InputComponent) :=
  {| controlName := controlName c; elementValue := elementValue c;
     maxLength := maxLength c; numeric := numeric c; error := error c;
     focused := f; invalid := invalid c; destroyed := destroyed c;
     commitPending := commitPending c; currentValue := currentValue c;
     inputBlurOccured := inputBlurOccured c;
     inputFocusOccured := inputFocusOccured c;
     mouseDownOccured := mouseDownOccured c;
     propagateChange := propagateChange c |}.

Definition with_occurrences (md bl fo : jsbool) (c : InputComponent) :=
  {| controlName := controlName c; elementValue := elementValue c;
     maxLength := maxLength c; numeric := numeric c; error := error c;
     focused := focused c; invalid := invalid c; destroyed := destroyed c;
     commitPending := commitPending c; currentValue := currentValue c;
     inputBlurOccured := bl;
     inputFocusOccured := fo;
     mouseDownOccured := md;
     propagateChange := propagateChange c |}.

Definition with_subscriptions (d p : bool) (c : InputComponent) :=
  {| controlName := controlName c; elementValue := elementValue c;
     maxLength := maxLength c; numeric := numeric c; error := error c;
     focused := focused c; invalid := invalid c; destroyed := d;
     commitPending := p; currentValue := currentValue c;
     inputBlurOccured := inputBlurOccured c;
     inputFocusOccured := inputFocusOccured c;
     mouseDownOccured := mouseDownOccured c;
     propagateChange := propagateChange c |}.

Definition with_inputs (cn : option FormControlName) (m : option Z)
    (n : option NumericInputOptions) (c : InputComponent) :=
  {| controlName := cn; elementValue := elementValue c;
     maxLength := m; numeric := n; error := error c;
     focused := focused c; invalid := invalid c; destroyed := destroyed c;
     commitPending := commitPending c; currentValue := currentValue c;
     inputBlurOccured := inputBlurOccured c;
     inputFocusOccured := inputFocusOccured c;
     mouseDownOccured := mouseDownOccured c;
     propagateChange := propagateChange c |}.

Definition with_error (e : jsstring) (c : InputComponent) :=
  {| controlName := controlName c; elementValue := elementValue c;
     maxLength := maxLength c; numeric := numeric c; error := e;
     focused := focused c; invalid := invalid c; destroyed := destroyed c;
     commitPending := commitPending c; currentValue := currentValue c;
     inputBlurOccured := inputBlurOccured c;
     inputFocusOccured := inputFocusOccured c;
     mouseDownOccured := mouseDownOccured c;
     propagateChange := propagateChange c |}.

Definition with_propagateChange (fn : option nat) (c : InputComponent) :=
  {| controlName := controlName c; elementValue := elementValue c;
     maxLength := maxLength c; numeric := numeric c; error := error c;
     focused := focused c; invalid := invalid c; destroyed := destroyed c;
     commitPending := commitPending c; currentValue := currentValue c;
     inputBlurOccured := inputBlurOccured c;
     inputFocusOccured := inputFocusOccured c;
     mouseDownOccured := mouseDownOccured c;
     propagateChange := fn |}.

(** [invalid] is a public field: the host template assigns it. *)
Definition with_invalid (i : bool) (c : InputComponent) :=
  {| controlName := controlName c; elementValue := elementValue c;
     maxLength := maxLength c; numeric := numeric c; error := error c;
     focused := focused c; invalid := i; destroyed := destroyed c;
     commitPending := commitPending c; currentValue := currentValue c;
     inputBlurOccured := inputBlurOccured c;
     inputFocusOccured := inputFocusOccured c;
     mouseDownOccured := mouseDownOccured c;
     propagateChange := propagateChange c |}.

(** *** Methods *)

(** [maxLength] holds the integral values of the bound number; [None] is an
    input that was never bound, and 0 is falsy. *)
Definition processInputValue (c : InputComponent) (value : jsstring) : jsstring :=
  let processed := value in
  let processed :=
    match maxLength c with
    | Some m =>
        if negb (m =? 0) && (Z.of_nat (List.length processed) >? m)
        then substr0 processed m
        else processed
    | None => processed
    end in
  let processed :=
    match numeric c with
    | Some o => applyNumericCompliance processed o
    | None => processed
    end in
  processed.

Definition setInputValue (value : jsstring) (decorate : bool)
    (c : InputComponent) : InputComponent :=
  if decorate
  then with_elementValue (getDecoratedValue value (numeric c)) c
  else with_elementValue value c.

Definition commitProperties (c : InputComponent) : InputComponent * list call :=
  if truthy (mouseDownOccured c) || truthy (inputFocusOccured c)
     || truthy (inputBlurOccured c)
  then
    let focusReceived := js_or (mouseDownOccured c) (inputFocusOccured c) in
    let focusStateChanged :=
      strict_neq (focused c) focusReceived || truthy (inputBlurOccured c) in
    let '(c, calls) :=
      if focusStateChanged then
        let c := with_focused focusReceived c in
        let decorate := negb (truthy (focused c)) && negb (invalid c) in
        let value := currentValue c in
        let c := setInputValue value decorate c in
        (c, [SetInputValue value decorate]
              ++ (if truthy (focused c) then [ElementFocus] else [])
              ++ [DetectChanges])
      else (c, []) in
    (with_occurrences (Some false) (Some false) (Some false) c, calls)
  else (c, []).

(** [invalidatePropertiesStream$.next()] : arms the debounce timer while the
    subscription of [initializeSubscriptions] is open. *)
Definition invalidateProperties (c : InputComponent) : InputComponent :=
  if destroyed c then c else with_subscriptions false true c.

(** The timer of [debounceTime(0)] elapses: the subscriber runs
    [commitProperties]. *)
Definition debounceElapsed (c : InputComponent) : InputComponent * list call :=
  if commitPending c && negb (destroyed c)
  then commitProperties (with_subscriptions false false c)
  else (c, []).

(** The first [map] of the value pipeline:
    [(value !== null && value !== undefined) ? value.toString() : ''] *)
Definition valueToString (value : stream_value) : jsstring :=
  match value with
  | VString s => s
  | VNull | VUndefined => []
  end.

(** [valueStream$.next(value)] : the stages of the pipeline run in order
    and synchronously, up to the subscriber. *)
Definition valueStream_next (value : stream_value) (c : InputComponent)
  : InputComponent * list call :=
  if destroyed c then (c, [])
  else
    let value := valueToString value in
    let value := processInputValue c value in
    let decorate := negb (truthy (focused c)) in
    let c := setInputValue value decorate c in
    if str_eqb (currentValue c) value
    then (c, [SetInputValue value decorate])
    else
      let c := with_currentValue value c in
      (c, [SetInputValue value decorate]
            ++ match propagateChange c with
               | Some fn => [PropagateChange fn value]
               | None => []
               end
            ++ [ValueChangeEmit value]).

Record SimpleChanges := {
  changes_numeric : option (option NumericInputBinding);
  changes_value : option stream_value
}.

Definition ngOnChanges (changes : SimpleChanges) (c : InputComponent)
  : InputComponent * list call :=
  let c :=
    match changes_numeric changes with
    | Some cur =>
        with_inputs (controlName c) (maxLength c)
          match cur with
          | Some b => Some (merge_defaults b)
          | None => None
          end c
    | None => c
    end in
  let '(c, calls) :=
    match changes_value changes with
    | Some v => valueStream_next v c
    | None => (c, [])
    end in
  (invalidateProperties c, calls).

Fixpoint lookup (key : jsstring) (es : list (jsstring * error_value))
  : option error_value :=
  match es with
  | [] => None
  | (k, v) :: es' => if str_eqb k key then Some v else lookup key es'
  end.

(** [control.getError(key)] : [errors ? errors[key] : null] *)
Definition getError (ctl : AbstractControl) (key : jsstring) : option error_value :=
  match errors ctl with
  | Some es => lookup key es
  | None => None
  end.

Definition ngDoCheck (c : InputComponent) : InputComponent :=
  let c := with_error [] c in
  match controlName c with
  | Some cn =>
      match control cn with
      | Some control =>
          match errors control with
          | Some es =>
              let errors :=
                List.map (fun key => getErrorMessage key (getError control key))
                  (List.map fst es) in
              with_error (join [8%N] errors) c
          | None => c
          end
      | None => c
      end
  | None => c
  end.

Definition ngOnDestroy (c : InputComponent) : InputComponent :=
  with_subscriptions true false c.

Definition writeValue (value : stream_value) (c : InputComponent) :=
  valueStream_next value c.

Definition registerOnChange (fn : option nat) (c : InputComponent) :=
  with_propagateChange fn c.

Definition onHostElementMouseDown (c : InputComponent) : InputComponent :=
  invalidateProperties
    (with_occurrences (Some true) (inputBlurOccured c) (inputFocusOccured c) c).

Definition onInputElementBlur (c : InputComponent) : InputComponent :=
  invalidateProperties
    (with_occurrences (mouseDownOccured c) (Some true) (inputFocusOccured c) c).

Definition onInputElementFocus (c : InputComponent) : InputComponent :=
  invalidateProperties
    (with_occurrences (mouseDownOccured c) (inputBlurOccured c) (Some true) c).

(** The event's target is the input element, which holds what was typed. *)
Definition onInputElementInput (typed : jsstring) (c : InputComponent) :=
  valueStream_next (VString typed) (with_elementValue typed c).

(** *** The component driven by the framework and the DOM *)

Inductive event :=
| BindInputs (cn : option FormControlName) (m : option Z)
| NgOnChanges (changes : SimpleChanges)
| NgDoCheck
| NgOnDestroy
| WriteValue (value : stream_value)
| RegisterOnChange (fn : option nat)
| RegisterOnTouched
| HostElementDoubleClick
| HostElementMouseDown
| InputElementBlur
| InputElementFocus
| InputElementInput (typed : jsstring)
| InputElementMouseDown
| DebounceElapsed.

Definition step (e : event) (c : InputComponent) : InputComponent * list call :=
  match e with
  | BindInputs cn m => (with_inputs cn m (numeric c) c, [])
  | NgOnChanges changes => ngOnChanges changes c
  | NgDoCheck => (ngDoCheck c, [])
  | NgOnDestroy => (ngOnDestroy c, [])
  | WriteValue v => writeValue v c
  | RegisterOnChange fn => (registerOnChange fn c, [])
  | RegisterOnTouched => (c, [])
  | HostElementDoubleClick => (c, [ElementSelect])
  | HostElementMouseDown => (onHostElementMouseDown c, [])
  | InputElementBlur => (onInputElementBlur c, [])
  | InputElementFocus => (onInputElementFocus c, [])
  | InputElementInput typed => onInputElementInput typed c
  | InputElementMouseDown => (c, [StopImmediatePropagation])
  | DebounceElapsed => debounceElapsed c
  end.

Fixpoint run (es : list event) (c : InputComponent) : InputComponent * list call :=
  match es with
  | [] => (c, [])
  | e :: es' =>
      let '(c1, calls1) := step e c in
      let '(c2, calls2) := run es' c1 in
      (c2, calls1 ++ calls2)
  end.

(** *** Sample configurations *)

(** A component bound with [numeric]="{ percents: true }" and the value
    ['12'], as [ngOnChanges] leaves it. *)
Definition percentField : InputComponent :=
  fst (ngOnChanges
         {| changes_numeric :=
              Some (Some {| bound_integer := None;
                            bound_preventEmpty := false;
                            bound_percents := true |});
            changes_value := Some (VString (lit "12")) |}
         created).

(** A component with [maxLength] 16 and the default numeric options. *)
Definition sixteenDigits : InputComponent :=
  with_inputs None (Some 16)
    (Some {| integer := true; preventEmpty := false; percents := false |})
    created.

(** A component with [maxLength] 1 and [numeric]="{ integer: false }". *)
Definition oneCharacter : InputComponent :=
  with_inputs None (Some 1)
    (Some {| integer := false; preventEmpty := false; percents := false |})
    created.

(** A session: the field is bound, receives a value from the form, is
    focused, edited, and left. *)
Definition session : list event :=
  [ NgOnChanges
      {| changes_numeric :=
           Some (Some {| bound_integer := None;
                         bound_preventEmpty := true;
                         bound_percents := true |});
         changes_value := None |};
    RegisterOnChange (Some 0%nat);
    WriteValue VNull;
    DebounceElapsed;
    HostElementMouseDown;
    InputElementFocus;
    DebounceElapsed;
    InputElementInput (lit "0x7");
    InputElementInput (lit "07.5");
    InputElementBlur;
    DebounceElapsed ].

(** The displayed value and the stored value agree, or the component is
    not focused and the displayed value is the stored one with the percent
    sign appended. *)
Definition consistent (c : InputComponent) : Prop :=
  elementValue c = currentValue c
  \/ (truthy (focused c) = false
      /\ currentValue c <> []
      /\ elementValue c = currentValue c ++ lit "%").

Definition propagations (calls : list call) : list call :=
  List.filter is_propagation calls.

(** The DOM events that set an occurrence flag and call
    [invalidateProperties]. *)
Definition is_interaction (e : event) : bool :=
  match e with
  | HostElementMouseDown | InputElementBlur | InputElementFocus => true
  | _ => false
  end.

(** Those that make [focusReceived] of [commitProperties] truthy. *)
Definition receives_focus (e : event) : bool :=
  match e with
  | HostElementMouseDown | InputElementFocus => true
  | _ => false
  end.

(** ** Properties of the built-ins *)

Lemma str_eqb_eq (a b : jsstring) : str_eqb a b = true <-> a = b.
Proof.
  revert b; induction a as [|x a IH]; intros [|y b]; simpl; split;
    try congruence; try reflexivity.
  - intros H. apply andb_true_iff in H as [Hx Hr].
    apply N.eqb_eq in Hx. apply IH in Hr. congruence.
  - intros H. injection H as -> ->. apply andb_true_iff. split.
    + apply N.eqb_refl.
    + now apply IH.
Qed.

Lemma str_eqb_refl (a : jsstring) : str_eqb a a = true.
Proof. now apply str_eqb_eq. Qed.

Lemma str_eqb_neq (a b : jsstring) : str_eqb a b = false <-> a <> b.
Proof.
  split.
  - intros H E. apply str_eqb_eq in E. congruence.
  - intros H. destruct (str_eqb a b) eqn:E; [|reflexivity].
    apply str_eqb_eq in E. contradiction.
Qed.

Lemma strict_neq_false (a b : jsbool) : strict_neq a b = false -> a = b.
Proof. destruct a as [[|]|], b as [[|]|]; simpl; congruence. Qed.

Lemma truthy_js_or (a b : jsbool) : truthy (js_or a b) = truthy a || truthy b.
Proof. destruct a as [[|]|], b as [[|]|]; reflexivity. Qed.

Lemma is_empty_nil (s : jsstring) : is_empty s = true <-> s = [].
Proof. destruct s; simpl; split; congruence. Qed.

Lemma strip_non_digits_all_digits (s : jsstring) :
  List.forallb is_digit (strip_non_digits s) = true.
Proof.
  unfold strip_non_digits. induction s as [|x s IH]; simpl; [reflexivity|].
  destruct (is_digit x) eqn:E; simpl; [rewrite E|]; exact IH.
Qed.

Lemma strip_non_digits_none (s : jsstring) :
  List.existsb is_digit s = false -> strip_non_digits s = [].
Proof.
  unfold strip_non_digits. induction s as [|x s IH]; simpl; [reflexivity|].
  intros H. apply orb_false_iff in H as [Hx Hs]. rewrite Hx. now apply IH.
Qed.

Lemma length_substr0 (s : jsstring) (n : Z) :
  0 <= n -> Z.of_nat (List.length (substr0 s n)) <= n.
Proof.
  intros Hn. unfold substr0.
  pose proof (List.firstn_le_length (Z.to_nat n) s). lia.
Qed.

(** ** Decoration *)

Lemma getDecoratedValue_percents (value : jsstring) (o : NumericInputOptions) :
  percents o = true ->
  getDecoratedValue value (Some o)
  = if is_empty value then [] else value ++ lit "%".
Proof.
  intros Hp. unfold getDecoratedValue, toPercentString. rewrite Hp.
  destruct value; reflexivity.
Qed.

Lemma getDecoratedValue_cases (value : jsstring) (n : option NumericInputOptions) :
  getDecoratedValue value n = value
  \/ (value <> [] /\ getDecoratedValue value n = value ++ lit "%").
Proof.
  unfold getDecoratedValue, toPercentString.
  destruct n as [o|]; [|now left].
  destruct (percents o); [|now left].
  destruct value; [now left|right]. split; [discriminate|reflexivity].
Qed.

(** ** Interaction state: [commitProperties] *)

(** C10. A run of [commitProperties] that finds one of the three occurrence
    flags set leaves all three at [false], and leaves in [focused] the value
    of [mouseDownOccured || inputFocusOccured]: it is truthy exactly when a
    mouse-down or a focus occurred, so a batch with only a blur leaves the
    component unfocused.  The stored value is the boolean itself as soon as
    [inputFocusOccured] was assigned once, which every such run does. *)
Theorem commitProperties_resets_occurrences (c : InputComponent) :
  truthy (mouseDownOccured c) || truthy (inputFocusOccured c)
    || truthy (inputBlurOccured c) = true ->
  let c' := fst (commitProperties c) in
  mouseDownOccured c' = Some false
  /\ inputFocusOccured c' = Some false
  /\ inputBlurOccured c' = Some false
  /\ focused c' = js_or (mouseDownOccured c) (inputFocusOccured c)
  /\ truthy (focused c')
     = truthy (mouseDownOccured c) || truthy (inputFocusOccured c)
  /\ (truthy (mouseDownOccured c) = false ->
      truthy (inputFocusOccured c) = false ->
      truthy (focused c') = false)
  /\ (inputFocusOccured c <> None ->
      focused c'
      = Some (truthy (mouseDownOccured c) || truthy (inputFocusOccured c))).
Proof.
  intros H. unfold commitProperties. rewrite H.
  destruct c as [cn ev ml nu er fo iv de cp cv bl fc md pc]; simpl in *.
  destruct md as [[|]|], fc as [[|]|], bl as [[|]|], fo as [[|]|], iv;
    simpl in *; try discriminate H;
    repeat split; try reflexivity; try congruence.
Qed.

(** A run that finds no flag set changes nothing and calls nothing. *)
Lemma commitProperties_idle (c : InputComponent) :
  truthy (mouseDownOccured c) || truthy (inputFocusOccured c)
    || truthy (inputBlurOccured c) = false ->
  commitProperties c = (c, []).
Proof. intros H. unfold commitProperties. now rewrite H. Qed.

Lemma commitProperties_currentValue (c : InputComponent) :
  currentValue (fst (commitProperties c)) = currentValue c.
Proof.
  unfold commitProperties, setInputValue.
  destruct c as [cn ev ml nu er fo iv de cp cv bl fc md pc]; simpl.
  destruct md as [[|]|], fc as [[|]|], bl as [[|]|], fo as [[|]|], iv;
    reflexivity.
Qed.

Lemma commitProperties_destroyed (c : InputComponent) :
  destroyed (fst (commitProperties c)) = destroyed c.
Proof.
  unfold commitProperties, setInputValue.
  destruct c as [cn ev ml nu er fo iv de cp cv bl fc md pc]; simpl.
  destruct md as [[|]|], fc as [[|]|], bl as [[|]|], fo as [[|]|], iv;
    reflexivity.
Qed.

(** The calls of [commitProperties]: none, or one [setInputValue] with the
    stored value, decorated when the new state is neither focused nor
    invalid. *)
Lemma commitProperties_calls (c : InputComponent) :
  let '(c', calls) := commitProperties c in
  calls = []
  \/ exists d,
       d = negb (truthy (focused c')) && negb (invalid c')
       /\ List.filter (fun x => match x with SetInputValue _ _ => true | _ => false end)
            calls = [SetInputValue (currentValue c) d]
       /\ elementValue c'
          = if d then getDecoratedValue (currentValue c) (numeric c)
            else currentValue c.
Proof.
  unfold commitProperties, setInputValue.
  destruct c as [cn ev ml nu er fo iv de cp cv bl fc md pc]; simpl.
  destruct md as [[|]|], fc as [[|]|], bl as [[|]|], fo as [[|]|], iv;
    simpl; try (now left); right; eexists; repeat split.
Qed.

(** ** The value pipeline *)

Lemma valueStream_next_closed (v : stream_value) (c : InputComponent) :
  destroyed c = true -> valueStream_next v c = (c, []).
Proof. intros H. unfold valueStream_next. now rewrite H. Qed.

Lemma valueStream_next_open (v : stream_value) (c : InputComponent) :
  destroyed c = false ->
  let p := processInputValue c (valueToString v) in
  let d := negb (truthy (focused c)) in
  let shown := if d then getDecoratedValue p (numeric c) else p in
  valueStream_next v c
  = if str_eqb (currentValue c) p
    then (with_elementValue shown c, [SetInputValue p d])
    else (with_currentValue p (with_elementValue shown c),
          [SetInputValue p d]
            ++ match propagateChange c with
               | Some fn => [PropagateChange fn p]
               | None => []
               end
            ++ [ValueChangeEmit p]).
Proof.
  intros H. unfold valueStream_next, setInputValue. rewrite H.
  destruct (negb (truthy (focused c))); simpl;
    destruct (str_eqb (currentValue c) _); reflexivity.
Qed.

(** C3. When the processed value equals [currentValue], the event reaches
    neither [propagateChange] nor [valueChange], and [currentValue] stays.
    Only a processed value that differs is propagated: it is stored, passed
    to the registered callback if there is one, and emitted, once each. *)
Theorem unchanged_value_is_not_propagated (v : stream_value) (c : InputComponent) :
  let p := processInputValue c (valueToString v) in
  let calls := snd (valueStream_next v c) in
  (p = currentValue c ->
   propagations calls = []
   /\ currentValue (fst (valueStream_next v c)) = currentValue c)
  /\ (forall call, In call calls -> is_propagation call = true ->
      p <> currentValue c
      /\ (call = ValueChangeEmit p \/ exists fn, call = PropagateChange fn p))
  /\ (p <> currentValue c -> destroyed c = false ->
      propagations calls
      = match propagateChange c with
        | Some fn => [PropagateChange fn p]
        | None => []
        end ++ [ValueChangeEmit p]
      /\ currentValue (fst (valueStream_next v c)) = p).
Proof.
  intros p calls. subst calls. destruct (destroyed c) eqn:D.
  - rewrite (valueStream_next_closed v c D). simpl.
    split; [now split|split].
    + intros call [].
    + discriminate.
  - rewrite (valueStream_next_open v c D). cbv zeta. fold p.
    destruct (str_eqb (currentValue c) p) eqn:E.
    + apply str_eqb_eq in E. simpl. split; [now split|split].
      * intros call [<-|[]] F. discriminate F.
      * congruence.
    + apply str_eqb_neq in E. simpl. split; [congruence|split].
      * intros call [<-|H] F; [discriminate F|].
        split; [congruence|].
        destruct (propagateChange c) as [fn|]; simpl in H.
        -- destruct H as [<-|[<-|[]]]; [right; now exists fn|now left].
        -- destruct H as [<-|[]]. now left.
      * intros _ _. split; [|reflexivity].
        destruct (propagateChange c); reflexivity.
Qed.

(** C8. [null] and [undefined] enter the pipeline as the empty string.
    Written through [writeValue] or sent into the value stream of an open
    component, each is processed as [''] is: the processed empty string is
    written to the element (decorated when the component is not focused),
    stored, and, when it differs from the value stored before, handed to
    the registered callback and emitted.  Whatever value is sent, every call
    carries the processed string. *)
Theorem null_and_undefined_become_empty (c : InputComponent) :
  valueToString VNull = []
  /\ valueToString VUndefined = []
  /\ writeValue VNull c = writeValue (VString []) c
  /\ writeValue VUndefined c = writeValue (VString []) c
  /\ valueStream_next VNull c = valueStream_next (VString []) c
  /\ valueStream_next VUndefined c = valueStream_next (VString []) c
  /\ (forall v call, In call (snd (valueStream_next v c)) ->
       let p := processInputValue c (valueToString v) in
       call = SetInputValue p (negb (truthy (focused c)))
       \/ call = ValueChangeEmit p
       \/ exists fn, call = PropagateChange fn p)
  /\ (destroyed c = false ->
      forall v, v = VNull \/ v = VUndefined ->
      let p := processInputValue c [] in
      let propagated :=
        if str_eqb (currentValue c) p then []
        else match propagateChange c with
             | Some fn => [PropagateChange fn p]
             | None => []
             end ++ [ValueChangeEmit p] in
      (currentValue (fst (writeValue v c)) = p
       /\ elementValue (fst (writeValue v c))
          = (if truthy (focused c) then p
             else getDecoratedValue p (numeric c))
       /\ snd (writeValue v c)
          = SetInputValue p (negb (truthy (focused c))) :: propagated)
      /\ (currentValue (fst (valueStream_next v c)) = p
          /\ elementValue (fst (valueStream_next v c))
             = (if truthy (focused c) then p
                else getDecoratedValue p (numeric c))
          /\ snd (valueStream_next v c)
             = SetInputValue p (negb (truthy (focused c))) :: propagated)).
Proof.
  assert (O : destroyed c = false ->
              forall v, v = VNull \/ v = VUndefined ->
              let p := processInputValue c [] in
              currentValue (fst (valueStream_next v c)) = p
              /\ elementValue (fst (valueStream_next v c))
                 = (if truthy (focused c) then p
                    else getDecoratedValue p (numeric c))
              /\ snd (valueStream_next v c)
                 = SetInputValue p (negb (truthy (focused c)))
                   :: (if str_eqb (currentValue c) p then []
                       else match propagateChange c with
                            | Some fn => [PropagateChange fn p]
                            | None => []
                            end ++ [ValueChangeEmit p])).
  { intros D v Hv p.
    assert (E : valueToString v = []) by (destruct Hv as [-> | ->]; reflexivity).
    rewrite (valueStream_next_open v c D). cbv zeta. rewrite E. fold p.
    destruct (str_eqb (currentValue c) p) eqn:Q; cbn [fst snd app].
    - apply str_eqb_eq in Q.
      split; [exact Q|]. split; [|reflexivity].
      cbn. now destruct (truthy (focused c)).
    - split; [reflexivity|]. split; [|reflexivity].
      cbn. now destruct (truthy (focused c)). }
  split; [reflexivity|]. split; [reflexivity|]. split; [reflexivity|].
  split; [reflexivity|]. split; [reflexivity|]. split; [reflexivity|].
  split.
  - intros v call H p. destruct (destroyed c) eqn:D.
    + rewrite (valueStream_next_closed v c D) in H. destruct H.
    + rewrite (valueStream_next_open v c D) in H. cbv zeta in H. fold p in H.
      destruct (str_eqb (currentValue c) p); simpl in H.
      * destruct H as [<-|[]]. now left.
      * destruct H as [<-|H]; [now left|].
        destruct (propagateChange c) as [fn|]; simpl in H.
        -- destruct H as [<-|[<-|[]]];
             [right; right; now exists fn|right; now left].
        -- destruct H as [<-|[]]. right; now left.
  - intros D v Hv. cbv zeta. unfold writeValue.
    split; exact (O D v Hv).
Qed.


(** ** Displayed value and stored value *)

Lemma consistent_shown (c : InputComponent) (p : jsstring) (d : bool)
    (n : option NumericInputOptions) :
  (d = true -> truthy (focused c) = false) ->
  currentValue c = p ->
  elementValue c = (if d then getDecoratedValue p n else p) ->
  consistent c.
Proof.
  intros Hd Hc He. unfold consistent. rewrite He, Hc. destruct d.
  - destruct (getDecoratedValue_cases p n) as [->|[Hne ->]].
    + now left.
    + right. repeat split; auto.
  - now left.
Qed.

(** After an event of the value pipeline the invariant holds, whatever the
    state before. *)
Lemma consistent_after_value_event (v : stream_value) (c : InputComponent) :
  destroyed c = false -> consistent (fst (valueStream_next v c)).
Proof.
  intros D. rewrite (valueStream_next_open v c D). cbv zeta.
  set (p := processInputValue c (valueToString v)).
  destruct (str_eqb (currentValue c) p) eqn:E; simpl.
  - apply str_eqb_eq in E.
    apply (consistent_shown _ p (negb (truthy (focused c))) (numeric c)); simpl; auto.
    now destruct (truthy (focused c)).
  - apply (consistent_shown _ p (negb (truthy (focused c))) (numeric c)); simpl; auto.
    now destruct (truthy (focused c)).
Qed.

(** [commitProperties] keeps the invariant: it either leaves the element
    alone or writes the stored value, decorated only when unfocused. *)
Lemma consistent_after_commit (c : InputComponent) :
  consistent c -> consistent (fst (commitProperties c)).
Proof.
  unfold consistent, commitProperties, setInputValue.
  destruct c as [cn ev ml nu er fo iv de cp cv bl fc md pc]; simpl.
  pose proof (getDecoratedValue_cases cv nu) as G.
  destruct md as [[|]|], fc as [[|]|], bl as [[|]|], fo as [[|]|], iv;
    simpl; intros H; try exact H; try (now left);
    try (destruct G as [->|[Hne ->]]; [now left|right; now repeat split]);
    try (destruct H as [H|[H _]]; [now left|discriminate H]).
Qed.

Lemma valueStream_next_destroyed (v : stream_value) (c : InputComponent) :
  destroyed (fst (valueStream_next v c)) = destroyed c.
Proof.
  destruct (destroyed c) eqn:D.
  - now rewrite (valueStream_next_closed v c D).
  - rewrite (valueStream_next_open v c D). cbv zeta.
    now destruct (str_eqb (currentValue c) _).
Qed.

Lemma invalidateProperties_destroyed (c : InputComponent) :
  destroyed (invalidateProperties c) = destroyed c.
Proof.
  unfold invalidateProperties. destruct (destroyed c) eqn:D; simpl; auto.
Qed.

Lemma ngOnChanges_destroyed (changes : SimpleChanges) (c : InputComponent) :
  destroyed (fst (ngOnChanges changes c)) = destroyed c.
Proof.
  unfold ngOnChanges.
  set (c0 := match changes_numeric changes with Some _ => _ | None => c end).
  assert (D0 : destroyed c0 = destroyed c)
    by (subst c0; now destruct (changes_numeric changes)).
  destruct (changes_value changes) as [v|].
  - pose proof (valueStream_next_destroyed v c0) as K.
    destruct (valueStream_next v c0) as [c1 calls]. simpl in *.
    rewrite invalidateProperties_destroyed. congruence.
  - simpl. rewrite invalidateProperties_destroyed. exact D0.
Qed.

(** [ngDoCheck] writes the [error] field and nothing else. *)
Lemma ngDoCheck_frame (c : InputComponent) :
  ngDoCheck c = with_error (error (ngDoCheck c)) c.
Proof.
  unfold ngDoCheck. cbv zeta. simpl.
  destruct (controlName c) as [[[[[es|]]|]]|]; reflexivity.
Qed.

(** Only [ngOnDestroy] closes the subscriptions, and nothing reopens them. *)
Lemma step_destroyed (e : event) (c : InputComponent) :
  destroyed (fst (step e c)) = false -> destroyed c = false.
Proof.
  destruct e; simpl; try (intros H; exact H).
  - now rewrite ngOnChanges_destroyed.
  - now rewrite ngDoCheck_frame.
  - discriminate.
  - unfold writeValue. now rewrite valueStream_next_destroyed.
  - unfold onHostElementMouseDown. now rewrite invalidateProperties_destroyed.
  - unfold onInputElementBlur. now rewrite invalidateProperties_destroyed.
  - unfold onInputElementFocus. now rewrite invalidateProperties_destroyed.
  - unfold onInputElementInput. now rewrite valueStream_next_destroyed.
  - unfold debounceElapsed.
    destruct (commitPending c && negb (destroyed c)) eqn:P; [|auto].
    intros _. apply andb_true_iff in P as [_ P].
    now destruct (destroyed c).
Qed.

Lemma consistent_invalidate (c : InputComponent) :
  consistent c -> consistent (invalidateProperties c).
Proof. unfold invalidateProperties. now destruct (destroyed c). Qed.

Lemma step_consistent (e : event) (c : InputComponent) :
  destroyed (fst (step e c)) = false ->
  consistent c -> consistent (fst (step e c)).
Proof.
  intros D' H. pose proof (step_destroyed e c D') as D.
  destruct e; simpl; try exact H.
  - (* ngOnChanges *)
    unfold ngOnChanges.
    destruct (changes_numeric changes) as [cur|];
      destruct (changes_value changes) as [v|];
      try match goal with
      | |- context [valueStream_next ?v ?x] =>
          pose proof (consistent_after_value_event v x D) as K;
          destruct (valueStream_next v x) as [c1 calls]
      end; simpl in *; apply consistent_invalidate; auto.
  - rewrite ngDoCheck_frame. exact H.
  - now apply consistent_after_value_event.
  - now apply consistent_invalidate.
  - now apply consistent_invalidate.
  - now apply consistent_invalidate.
  - unfold onInputElementInput. now apply consistent_after_value_event.
  - unfold debounceElapsed.
    destruct (commitPending c && negb (destroyed c)); [|exact H].
    now apply consistent_after_commit.
Qed.

Lemma run_destroyed (es : list event) (c : InputComponent) :
  destroyed (fst (run es c)) = false -> destroyed c = false.
Proof.
  revert c. induction es as [|e es IH]; intros c; simpl; [auto|].
  destruct (step e c) as [c1 calls1] eqn:E1.
  specialize (IH c1). destruct (run es c1) as [c2 calls2]. simpl in *.
  intros D. apply (step_destroyed e c). rewrite E1. auto.
Qed.

(** C4. Along every sequence of framework and DOM events, as long as the
    subscriptions are open, the displayed value and [currentValue] are
    equal, or the component is unfocused and the displayed value is
    [currentValue] followed by the percent sign. *)
Theorem displayed_and_stored_value_agree (es : list event) (c : InputComponent) :
  consistent c ->
  destroyed (fst (run es c)) = false ->
  consistent (fst (run es c)).
Proof.
  revert c. induction es as [|e es IH]; intros c H D; simpl in *; [exact H|].
  pose proof (step_consistent e c) as S.
  destruct (step e c) as [c1 calls1].
  pose proof (run_destroyed es c1) as R.
  specialize (IH c1). destruct (run es c1) as [c2 calls2]. simpl in *.
  auto.
Qed.

(** C2. With the [percents] flag set, a decorated write shows a non-empty
    value followed by one percent sign and shows the empty value as it is.
    That is what the element shows after a batch with only a blur (the
    component not being [invalid]), and after a value event that arrives
    while the component is unfocused. *)
Theorem unfocused_percents_appends_percent_sign
    (c : InputComponent) (o : NumericInputOptions) :
  numeric c = Some o ->
  percents o = true ->
  (forall value,
     elementValue (setInputValue value true c)
     = if is_empty value then [] else value ++ lit "%")
  /\ (invalid c = false ->
      truthy (mouseDownOccured c) = false ->
      truthy (inputFocusOccured c) = false ->
      truthy (inputBlurOccured c) = true ->
      truthy (focused (fst (commitProperties c))) = false
      /\ elementValue (fst (commitProperties c))
         = if is_empty (currentValue c) then []
           else currentValue c ++ lit "%")
  /\ (forall v,
      destroyed c = false ->
      truthy (focused c) = false ->
      let p := processInputValue c (valueToString v) in
      elementValue (fst (valueStream_next v c))
      = if is_empty p then [] else p ++ lit "%").
Proof.
  intros Hn Hp. split; [|split].
  - intros value. unfold setInputValue. simpl. rewrite Hn.
    now apply getDecoratedValue_percents.
  - destruct c as [cn ev ml nu er fo iv de cp cv bl fc md pc]; simpl in *.
    intros -> Hmd Hfc Hbl. subst nu.
    unfold commitProperties, setInputValue; simpl.
    destruct md as [[|]|], fc as [[|]|], bl as [[|]|], fo as [[|]|];
      simpl in *; try discriminate;
      (split; [reflexivity|];
       unfold getDecoratedValue, toPercentString; rewrite Hp;
       destruct cv; reflexivity).
  - intros v D F p. rewrite (valueStream_next_open v c D). cbv zeta.
    fold p. rewrite F. simpl.
    destruct (str_eqb (currentValue c) p); simpl; rewrite Hn;
      now apply getDecoratedValue_percents.
Qed.

(** ** Error state *)

Lemma lookup_unique (es : list (jsstring * error_value)) (k : jsstring)
    (v : error_value) :
  NoDup (List.map fst es) -> In (k, v) es -> lookup k es = Some v.
Proof.
  induction es as [|[k' v'] es IH]; simpl; intros N H; [destruct H|].
  inversion N as [|? ? Hnot Hrest]; subst.
  destruct H as [H|H].
  - injection H as -> ->. now rewrite str_eqb_refl.
  - destruct (str_eqb k' k) eqn:E.
    + apply str_eqb_eq in E. subst k'. elim Hnot.
      change k with (fst (k, v)). now apply in_map.
    + now apply IH.
Qed.

(** C7. [ngDoCheck] sets [error] to the messages of all error keys, each
    formatted from the key and its payload, joined with the backspace
    character; the field is empty when there is no bound control, no
    control behind the directive, or no errors on it.  The previous
    content of the field does not matter. *)
Theorem ngDoCheck_error (c : InputComponent) :
  (forall cn ctl es,
     controlName c = Some cn -> control cn = Some ctl -> errors ctl = Some es ->
     NoDup (List.map fst es) ->
     error (ngDoCheck c)
     = join [8%N]
         (List.map (fun kv => getErrorMessage (fst kv) (Some (snd kv))) es))
  /\ (controlName c = None -> error (ngDoCheck c) = [])
  /\ (forall cn,
        controlName c = Some cn -> control cn = None ->
        error (ngDoCheck c) = [])
  /\ (forall cn ctl,
        controlName c = Some cn -> control cn = Some ctl -> errors ctl = None ->
        error (ngDoCheck c) = []).
Proof.
  unfold ngDoCheck. cbv zeta. simpl. repeat split.
  - intros cn ctl es -> -> E N. rewrite E. simpl.
    f_equal. rewrite List.map_map. apply List.map_ext_in.
    intros [k v] H. simpl. unfold getError. rewrite E.
    now rewrite (lookup_unique es k v N H).
  - now intros ->.
  - now intros cn -> ->.
  - now intros cn ctl -> -> ->.
Qed.

(** ** Sanitisation *)

Lemma existsb_firstn (f : code_unit -> bool) (n : nat) (s : jsstring) :
  List.existsb f s = false -> List.existsb f (List.firstn n s) = false.
Proof.
  revert n. induction s as [|x s IH]; intros [|n]; simpl; auto.
  intros H. apply orb_false_iff in H as [-> Hs]. simpl. now apply IH.
Qed.

(** The string the length restriction leaves. *)
Lemma processInputValue_clamped (c : InputComponent) (value : jsstring) (m : Z) :
  maxLength c = Some m -> 0 < m ->
  processInputValue c value
  = match numeric c with
    | Some o => applyNumericCompliance (substr0 value m) o
    | None => substr0 value m
    end.
Proof.
  intros Hm Hpos. unfold processInputValue. rewrite Hm.
  replace (negb (m =? 0)) with true
    by (symmetry; apply negb_true_iff, Z.eqb_neq; lia).
  simpl. destruct (Z.of_nat (List.length value) >? m) eqn:E; [reflexivity|].
  assert (L : (List.length value <= Z.to_nat m)%nat).
  { rewrite Z.gtb_ltb in E. apply Z.ltb_ge in E. lia. }
  unfold substr0. now rewrite (List.firstn_all2 value L).
Qed.

Lemma length_strip_non_digits (s : jsstring) :
  (List.length (strip_non_digits s) <= List.length s)%nat.
Proof. apply List.filter_length_le. Qed.

(** C9, amended. In integer mode, a string without digits is processed to
    ["0"] when [preventEmpty] is set and to the empty string otherwise, by
    [applyNumericCompliance] and by [processInputValue] alike; so is the
    empty string in every numeric mode. *)
Theorem no_digits_in_integer_mode (c : InputComponent) (value : jsstring)
    (o : NumericInputOptions) :
  integer o = true ->
  List.existsb is_digit value = false ->
  applyNumericCompliance value o = (if preventEmpty o then lit "0" else [])
  /\ (numeric c = Some o ->
      processInputValue c value = if preventEmpty o then lit "0" else [])
  /\ (forall o',
      applyNumericCompliance [] o' = if preventEmpty o' then lit "0" else []).
Proof.
  intros Hi Hd.
  assert (E : forall o',
            applyNumericCompliance [] o' = if preventEmpty o' then lit "0" else [])
    by (intros o'; unfold applyNumericCompliance;
        destruct (integer o'), (preventEmpty o'); reflexivity).
  assert (A : forall s, List.existsb is_digit s = false ->
            applyNumericCompliance s o = if preventEmpty o then lit "0" else []).
  { intros s Hs. unfold applyNumericCompliance. rewrite Hi.
    rewrite (strip_non_digits_none s Hs). simpl.
    destruct (preventEmpty o); reflexivity. }
  split; [now apply A|]. split; [|exact E].
  intros Hn. unfold processInputValue. rewrite Hn.
  destruct (maxLength c) as [m|]; [|now apply A].
  destruct (negb (m =? 0) && (Z.of_nat (List.length value) >? m));
    [|now apply A].
  apply A. unfold substr0. now apply existsb_firstn.
Qed.

End Component.

Arguments controlName {error_value} i.
Arguments elementValue {error_value} i.
Arguments maxLength {error_value} i.
Arguments numeric {error_value} i.
Arguments error {error_value} i.
Arguments focused {error_value} i.
Arguments invalid {error_value} i.
Arguments destroyed {error_value} i.
Arguments commitPending {error_value} i.
Arguments currentValue {error_value} i.
Arguments inputBlurOccured {error_value} i.
Arguments inputFocusOccured {error_value} i.
Arguments mouseDownOccured {error_value} i.
Arguments propagateChange {error_value} i.
Arguments with_inputs {error_value} cn m n c.
Arguments with_occurrences {error_value} md bl fo c.
Arguments processInputValue {error_value} c value.
Arguments setInputValue {error_value} value decorate c.
Arguments commitProperties {error_value} c.
Arguments valueStream_next {error_value} value c.
Arguments writeValue {error_value} value c.
Arguments ngOnChanges {error_value} changes c.
Arguments ngDoCheck {error_value} getErrorMessage c.
Arguments onInputElementBlur {error_value} c.
Arguments onInputElementInput {error_value} typed c.
Arguments step {error_value} getErrorMessage e c.
Arguments run {error_value} getErrorMessage es c.
Arguments with_invalid {error_value} i c.
Arguments is_interaction {error_value} e.
Arguments receives_focus {error_value} e.
Arguments consistent {error_value} c.

(** * Integer mode below [2^53] *)

(** ** Digit strings *)

Lemma is_digit_cases (c : code_unit) :
  is_digit c = true ->
  In c [48; 49; 50; 51; 52; 53; 54; 55; 56; 57]%N.
Proof.
  unfold is_digit. intros H. apply andb_true_iff in H as [H1 H2].
  apply N.leb_le in H1, H2. simpl.
  assert (K : (c = 48 \/ c = 49 \/ c = 50 \/ c = 51 \/ c = 52 \/ c = 53
               \/ c = 54 \/ c = 55 \/ c = 56 \/ c = 57)%N) by lia.
  repeat (destruct K as [->|K]; [tauto|]). subst c. tauto.
Qed.

Lemma digit_value_digit (c : code_unit) :
  is_digit c = true -> digit_value 10 c = Some (c - 48)%N /\ (c - 48 < 10)%N.
Proof.
  intros H. apply is_digit_cases in H. simpl in H.
  repeat (destruct H as [<-|H]; [split; reflexivity|]). destruct H.
Qed.

Lemma drop_ws_digit (c : code_unit) (s : jsstring) :
  is_digit c = true -> drop_ws (c :: s) = c :: s.
Proof.
  intros H. apply is_digit_cases in H. simpl in H.
  repeat (destruct H as [<-|H]; [reflexivity|]). destruct H.
Qed.

Lemma span_digits (s : jsstring) :
  List.forallb is_digit s = true -> span is_digit s = (s, []).
Proof.
  induction s as [|c s IH]; simpl; [reflexivity|].
  intros H. apply andb_true_iff in H as [Hc Hs]. rewrite Hc, (IH Hs). reflexivity.
Qed.

Lemma trim_digits (s : jsstring) :
  List.forallb is_digit s = true -> trim s = s.
Proof.
  intros H. unfold trim.
  assert (D : forall t, List.forallb is_digit t = true -> drop_ws t = t).
  { intros [|c t] Ht; [reflexivity|]. simpl in Ht.
    apply andb_true_iff in Ht as [Hc _]. now apply drop_ws_digit. }
  rewrite (D s H). rewrite D.
  - apply List.rev_involutive.
  - rewrite List.forallb_forall in *. intros x Hx. apply H. now apply List.in_rev.
Qed.

(** The value of a digit string, bounded by its length. *)
Lemma digits_value_digits (s : jsstring) (acc : N) :
  List.forallb is_digit s = true ->
  exists v, digits_value 10 acc s = Some v
            /\ (acc * 10 ^ N.of_nat (List.length s) <= v
                < (acc + 1) * 10 ^ N.of_nat (List.length s))%N.
Proof.
  revert acc. induction s as [|c s IH]; intros acc H.
  - exists acc. simpl. split; [reflexivity|]. lia.
  - simpl in H. apply andb_true_iff in H as [Hc Hs].
    destruct (digit_value_digit c Hc) as [E B].
    cbn [digits_value]. rewrite E.
    destruct (IH (acc * 10 + (c - 48))%N Hs) as (v & Ev & Bv).
    exists v. split; [exact Ev|].
    replace (N.of_nat (List.length (c :: s))) with (N.succ (N.of_nat (List.length s)))
      by (simpl List.length; lia).
    rewrite N.pow_succ_r'. 
    set (P := (10 ^ N.of_nat (List.length s))%N) in *.
    nia.
Qed.

Lemma parse_non_decimal_digits (s : jsstring) :
  List.forallb is_digit s = true -> parse_non_decimal s = None.
Proof.
  destruct s as [|c0 [|c1 [|c2 s]]]; try reflexivity; intros H.
  - destruct c0 as [|p]; [reflexivity|].
    repeat (destruct p as [p|p|]; try reflexivity).
  - destruct c0 as [|p]; [reflexivity|].
    repeat (destruct p as [p|p|]; try reflexivity).
  - simpl in H.
    apply andb_true_iff in H as [_ H]. apply andb_true_iff in H as [H1 _].
    apply is_digit_cases in H1. simpl in H1.
    assert (R : (if (c1 =? 120) || (c1 =? 88) then Some 16
                 else if (c1 =? 111) || (c1 =? 79) then Some 8
                 else if (c1 =? 98) || (c1 =? 66) then Some 2 else None)%N
                = @None N).
    { repeat (destruct H1 as [<-|H1]; [reflexivity|]). destruct H1. }
    unfold parse_non_decimal.
    destruct c0 as [|p]; [reflexivity|].
    repeat (destruct p as [p|p|]; try reflexivity).
    now rewrite R.
Qed.

Lemma Number_digits (s : jsstring) :
  List.forallb is_digit s = true -> s <> [] ->
  Number s = number_of_N false (dec_value s).
Proof.
  intros H Hne. unfold Number. rewrite (trim_digits s H).
  destruct s as [|c s]; [contradiction|].
  rewrite (parse_non_decimal_digits _ H).
  assert (Hc : is_digit c = true) by (simpl in H; now apply andb_true_iff in H as [? _]).
  assert (PD : parse_decimal (c :: s) = parse_unsigned_decimal false (c :: s)).
  { pose proof (is_digit_cases c Hc) as K. simpl in K.
    repeat (destruct K as [<-|K]; [reflexivity|]). destruct K. }
  rewrite PD. unfold parse_unsigned_decimal.
  assert (NI : str_eqb (c :: s) (lit "Infinity") = false).
  { pose proof (is_digit_cases c Hc) as K. simpl in K.
    repeat (destruct K as [<-|K]; [reflexivity|]). destruct K. }
  rewrite NI. rewrite (span_digits _ H). cbn [app].
  rewrite List.app_nil_r. cbn [parse_exponent List.length Z.of_nat].
  unfold number_of_N.
  destruct (dec_value (c :: s)); reflexivity.
Qed.

(** ** Rounding of integers to binary64 *)

Lemma digits2_pos_spec (p : positive) :
  2 ^ (Zpos (digits2_pos p) - 1) <= Zpos p < 2 ^ Zpos (digits2_pos p).
Proof.
  induction p as [p IH|p IH|]; cbn [digits2_pos].
  - rewrite Pos2Z.inj_succ, Z.pow_succ_r by lia.
    replace (Z.succ (Zpos (digits2_pos p)) - 1) with (Z.succ (Zpos (digits2_pos p) - 1)) by lia.
    rewrite Z.pow_succ_r by lia. lia.
  - rewrite Pos2Z.inj_succ, Z.pow_succ_r by lia.
    replace (Z.succ (Zpos (digits2_pos p)) - 1) with (Z.succ (Zpos (digits2_pos p) - 1)) by lia.
    rewrite Z.pow_succ_r by lia. lia.
  - simpl. lia.
Qed.

Lemma digits2_pos_le (p : positive) (n : Z) :
  Zpos p < 2 ^ n -> 0 <= n -> Zpos (digits2_pos p) <= n.
Proof.
  intros H Hn. pose proof (digits2_pos_spec p) as [L _].
  destruct (Z_le_gt_dec (Zpos (digits2_pos p)) n) as [|G]; [assumption|].
  exfalso. assert (2 ^ n <= 2 ^ (Zpos (digits2_pos p) - 1))
    by (apply Z.pow_le_mono_r; lia). lia.
Qed.

Lemma digits2_pos_gt (p : positive) (n : Z) :
  2 ^ n <= Zpos p -> 0 <= n -> n < Zpos (digits2_pos p).
Proof.
  intros H Hn. pose proof (digits2_pos_spec p) as [_ U].
  destruct (Z_lt_ge_dec n (Zpos (digits2_pos p))) as [|G]; [assumption|].
  exfalso. assert (2 ^ Zpos (digits2_pos p) <= 2 ^ n)
    by (apply Z.pow_le_mono_r; lia). lia.
Qed.

Lemma iter_xO_value (p k : positive) :
  Zpos (Pos.iter xO p k) = Zpos p * 2 ^ Zpos k.
Proof.
  induction k as [|k IH] using Pos.peano_ind.
  - simpl. lia.
  - rewrite Pos.iter_succ, Pos2Z.inj_succ, Z.pow_succ_r by lia.
    rewrite Pos2Z.inj_xO, IH. lia.
Qed.

Lemma iter_xO_digits (p k : positive) :
  digits2_pos (Pos.iter xO p k) = (digits2_pos p + k)%positive.
Proof.
  induction k as [|k IH] using Pos.peano_ind.
  - simpl. lia.
  - rewrite Pos.iter_succ. cbn [digits2_pos]. rewrite IH. lia.
Qed.

Lemma shl_align_small (v : positive) :
  Zpos v < 2 ^ 53 ->
  shl_align v 0 (small_exponent v) = (small_mantissa v, small_exponent v)
  /\ Zpos (digits2_pos (small_mantissa v)) = 53
  /\ Zpos (small_mantissa v) = Zpos v * 2 ^ (- small_exponent v)
  /\ -52 <= small_exponent v <= 0.
Proof.
  intros H. pose proof (digits2_pos_le v 53 H ltac:(lia)) as D.
  unfold small_mantissa, small_exponent, shl_align.
  destruct (Zpos (digits2_pos v) - 53 - 0) as [|q|q] eqn:E; try lia.
  - cbn [fst]. replace (Zpos (digits2_pos v) - 53) with 0 by lia.
    repeat split; try lia.
  - cbn [fst]. repeat split; try lia.
    + rewrite iter_xO_digits. lia.
    + rewrite iter_xO_value. f_equal. f_equal. lia.
Qed.

Lemma fexp_normal (d : Z) : -1021 <= d -> fexp prec emax d = d - 53.
Proof. intros H. unfold fexp, SpecFloat.emin, prec, emax. lia. Qed.

Lemma binary_round_aux_exact (mz : positive) (ez : Z) :
  Zpos (digits2_pos mz) = 53 -> -1074 <= ez <= 971 ->
  binary_round_aux prec emax false (Zpos mz) ez loc_Exact = S754_finite false mz ez.
Proof.
  intros D B.
  assert (F : fexp prec emax (Zpos (digits2_pos mz) + ez) - ez = 0)
    by (rewrite D, fexp_normal; lia).
  unfold binary_round_aux, shr_fexp.
  cbn [Zdigits2 shr_record_of_loc]. rewrite F. cbn [shr].
  cbn [shr_m loc_of_shr_record round_nearest_even Zdigits2 shr_record_of_loc].
  rewrite F. cbn [shr shr_m].
  replace (ez <=? emax - prec) with true; [reflexivity|].
  symmetry. apply Z.leb_le. unfold emax, prec. lia.
Qed.

Lemma binary_round_small (v : positive) :
  Zpos v < 2 ^ 53 ->
  binary_round prec emax false v 0
  = S754_finite false (small_mantissa v) (small_exponent v).
Proof.
  intros H. destruct (shl_align_small v H) as (A & D & _ & B).
  unfold binary_round. rewrite Z.add_0_r.
  pose proof (digits2_pos_le v 53 H ltac:(lia)).
  rewrite fexp_normal by lia. fold (small_exponent v). rewrite A.
  apply binary_round_aux_exact; [exact D|lia].
Qed.

Lemma shr_exponent (r : shr_record) (e n : Z) : e <= snd (shr r e n).
Proof. unfold shr. destruct n; cbn [snd]; lia. Qed.

Lemma binary_round_aux_exponent (s s' : bool) (mx ex : Z) (lx : location)
    (m' : positive) (e' : Z) :
  binary_round_aux prec emax s mx ex lx = S754_finite s' m' e' ->
  snd (shr_fexp prec emax mx ex lx) <= e'.
Proof.
  unfold binary_round_aux.
  destruct (shr_fexp prec emax mx ex lx) as [mrs1 e1]. cbn [snd].
  pose proof (shr_exponent
                (shr_record_of_loc
                   (round_nearest_even (shr_m mrs1) (loc_of_shr_record mrs1))
                   loc_Exact) e1
                (fexp prec emax
                   (Zdigits2 (round_nearest_even (shr_m mrs1) (loc_of_shr_record mrs1)) + e1)
                 - e1)) as G.
  unfold shr_fexp.
  destruct (shr _ e1 _) as [mrs2 e2]. cbn [snd] in G.
  destruct (shr_m mrs2); try discriminate.
  destruct (e2 <=? emax - prec); try discriminate.
  intros E. injection E as _ _ <-. exact G.
Qed.

Lemma binary_round_large (y m' : positive) (s' : bool) (e' : Z) :
  2 ^ 53 <= Zpos y ->
  binary_round prec emax false y 0 = S754_finite s' m' e' -> 1 <= e'.
Proof.
  intros H E. pose proof (digits2_pos_gt y 53 H ltac:(lia)) as D.
  unfold binary_round in E. rewrite Z.add_0_r in E.
  rewrite fexp_normal in E by lia.
  unfold shl_align in E.
  destruct (Zpos (digits2_pos y) - 53 - 0) as [|q|q] eqn:Q; try lia.
  apply binary_round_aux_exponent in E.
  unfold shr_fexp in E. cbn [Zdigits2] in E.
  rewrite Z.add_0_r, fexp_normal in E by lia.
  rewrite Q in E. cbn [shr snd] in E. lia.
Qed.

(** An integer that rounds like an integer below [2^53] is that integer. *)
Lemma binary_round_small_inj (v y : positive) :
  Zpos v < 2 ^ 53 ->
  binary_round prec emax false y 0 = binary_round prec emax false v 0 ->
  y = v.
Proof.
  intros Hv E. rewrite (binary_round_small v Hv) in E.
  destruct (Z_lt_ge_dec (Zpos y) (2 ^ 53)) as [Hy|Hy].
  - rewrite (binary_round_small y Hy) in E. injection E as Em Ee.
    destruct (shl_align_small v Hv) as (_ & _ & Mv & _).
    destruct (shl_align_small y Hy) as (_ & _ & My & _).
    rewrite Em, Ee in My. rewrite Mv in My.
    assert (0 < 2 ^ (- small_exponent v)) by (apply Z.pow_pos_nonneg; unfold small_exponent;
      pose proof (digits2_pos_le v 53 Hv ltac:(lia)); lia).
    nia.
  - apply binary_round_large in E; [|lia].
    destruct (shl_align_small v Hv) as (_ & _ & _ & B). lia.
Qed.

(** ** Decimal digits *)

Lemma is_digit_of_Z (r : Z) : 0 <= r < 10 -> is_digit (Z.to_N (48 + r)) = true.
Proof.
  intros H. unfold is_digit. apply andb_true_iff.
  split; apply N.leb_le; lia.
Qed.

Lemma has_digits_spec (k s : Z) :
  has_digits k s = true <-> 10 ^ (k - 1) <= s < 10 ^ k.
Proof.
  unfold has_digits. rewrite andb_true_iff, Z.leb_le, Z.ltb_lt. tauto.
Qed.

(** The number of decimal digits of a positive integer is unique. *)
Lemma magnitude_unique (z a b : Z) :
  0 <= a -> 0 <= b -> 10 ^ (a - 1) <= z < 10 ^ a -> 10 ^ (b - 1) <= z < 10 ^ b -> a = b.
Proof.
  intros Ha Hb [La Ua] [Lb Ub].
  destruct (Z.lt_trichotomy a b) as [L|[E|G]]; [exfalso| exact E |exfalso].
  - assert (10 ^ a <= 10 ^ (b - 1)) by (apply Z.pow_le_mono_r; lia). lia.
  - assert (10 ^ b <= 10 ^ (a - 1)) by (apply Z.pow_le_mono_r; lia). lia.
Qed.

Lemma digits_of_spec (fuel : nat) :
  forall (z : Z) (acc : jsstring) (k : Z),
    1 <= k -> 10 ^ (k - 1) <= z < 10 ^ k -> k <= Z.of_nat fuel ->
    Z.of_nat (List.length (digits_of fuel z acc)) = k + Z.of_nat (List.length acc)
    /\ (List.forallb is_digit acc = true ->
        List.forallb is_digit (digits_of fuel z acc) = true).
Proof.
  induction fuel as [|f IH]; intros z acc k Hk [L U] Hf; [lia|].
  assert (Z0 : 0 < z) by (pose proof (Z.pow_pos_nonneg 10 (k - 1)); lia).
  cbn [digits_of].
  assert (Hd : is_digit (Z.to_N (48 + z mod 10)) = true)
    by (apply is_digit_of_Z; apply Z.mod_pos_bound; lia).
  destruct (z <? 10) eqn:E.
  - apply Z.ltb_lt in E.
    assert (k = 1).
    { destruct (Z.eq_dec k 1) as [|N]; [assumption|exfalso].
      assert (10 ^ 1 <= 10 ^ (k - 1)) by (apply Z.pow_le_mono_r; lia).
      simpl in *. lia. }
    subst k. split.
    + cbn [List.length]. lia.
    + intros Ha. cbn [List.forallb]. now rewrite Hd.
  - apply Z.ltb_ge in E.
    assert (K2 : 2 <= k).
    { destruct (Z_le_gt_dec 2 k) as [|G]; [assumption|exfalso].
      assert (k = 1) by lia. subst k. simpl in U. lia. }
    assert (B : 10 ^ (k - 1 - 1) <= z / 10 < 10 ^ (k - 1)).
    { replace (k - 1) with (Z.succ (k - 1 - 1)) in L by lia.
      rewrite Z.pow_succ_r in L by lia.
      replace k with (Z.succ (k - 1)) in U at 1 by lia.
      rewrite Z.pow_succ_r in U by lia.
      split.
      - apply Z.div_le_lower_bound; lia.
      - apply Z.div_lt_upper_bound; lia. }
    destruct (IH (z / 10) (Z.to_N (48 + z mod 10) :: acc) (k - 1)
                ltac:(lia) B ltac:(lia)) as [Hl Hdg].
    split.
    + rewrite Hl. cbn [List.length]. lia.
    + intros Ha. apply Hdg. cbn [List.forallb]. now rewrite Hd.
Qed.

Lemma two_le_ten_pow (n : Z) : 0 <= n -> 2 ^ n <= 10 ^ n.
Proof. intros H. apply Z.pow_le_mono_l. lia. Qed.

Lemma bits_ge (z k : Z) : 1 <= k -> 10 ^ (k - 1) <= z -> k <= Z.of_nat (bits z).
Proof.
  intros Hk H. unfold bits.
  pose proof (two_le_ten_pow (k - 1) ltac:(lia)).
  assert (0 < z) by (pose proof (Z.pow_pos_nonneg 2 (k - 1)); lia).
  assert (k - 1 <= Z.log2 z) by (apply Z.log2_le_pow2; lia).
  rewrite Nat2Z.inj_succ, Z2Nat.id by apply Z.log2_nonneg. lia.
Qed.

Lemma decimal_digits_spec (s k : Z) :
  1 <= k -> 10 ^ (k - 1) <= s < 10 ^ k ->
  Z.of_nat (List.length (decimal_digits s)) = k
  /\ List.forallb is_digit (decimal_digits s) = true.
Proof.
  intros Hk B. unfold decimal_digits.
  destruct (digits_of_spec (bits s) s [] k Hk B) as [L D].
  - apply bits_ge; lia.
  - cbn [List.length Z.of_nat] in L. rewrite Z.add_0_r in L.
    split; [exact L|now apply D].
Qed.

Lemma zeros_spec (n : Z) :
  List.forallb is_digit (zeros n) = true
  /\ List.length (zeros n) = Z.to_nat n.
Proof.
  unfold zeros. split; [|apply List.repeat_length].
  induction (Z.to_nat n) as [|j IH]; simpl; auto.
Qed.

(** Digits followed by zeros: the form [Number::toString] gives an integer
    below [10^21]. *)
Lemma format_decimal_integer (s p k : Z) :
  1 <= k -> 10 ^ (k - 1) <= s < 10 ^ k -> 0 <= p -> p + k <= 21 ->
  List.forallb is_digit (format_decimal s p) = true
  /\ Z.of_nat (List.length (format_decimal s p)) = p + k.
Proof.
  intros Hk B Hp Hn. destruct (decimal_digits_spec s k Hk B) as [L D].
  unfold format_decimal. rewrite L.
  replace ((k <=? p + k) && (p + k <=? 21)) with true
    by (symmetry; apply andb_true_iff; split; apply Z.leb_le; lia).
  destruct (zeros_spec (p + k - k)) as [Zd Zl].
  split.
  - rewrite List.forallb_app, D, Zd. reflexivity.
  - rewrite List.length_app, Zl. lia.
Qed.

(** ** Shortest digits of an integer below [2^53] *)

Lemma real_of_small (v : positive) :
  Zpos v < 2 ^ 53 ->
  (real_of (small_mantissa v) (small_exponent v) == inject_Z (Zpos v))%Q.
Proof.
  intros H. destruct (shl_align_small v H) as (_ & _ & M & B).
  unfold real_of. rewrite M.
  set (j := - small_exponent v) in *.
  replace (small_exponent v) with (- j) by (unfold j; lia).
  rewrite inject_Z_mult, Qpower_opp, (Zpower_Qpower 2 j) by lia.
  change (inject_Z 2) with 2%Q.
  rewrite <- Qmult_assoc, Qmult_inv_r, Qmult_1_r; [reflexivity|].
  apply Qpower_not_0. discriminate.
Qed.

Lemma Qle_bool_pow10 (x : Q) (v n : Z) :
  (x == inject_Z v)%Q -> 0 <= n ->
  Qle_bool (Qpower 10 n) x = (10 ^ n <=? v).
Proof.
  intros E Hn. rewrite E.
  change 10%Q with (inject_Z 10). rewrite <- Zpower_Qpower by exact Hn.
  destruct (10 ^ n <=? v) eqn:C.
  - apply Qle_bool_iff. rewrite <- Zle_Qle. now apply Z.leb_le.
  - destruct (Qle_bool (inject_Z (10 ^ n)) (inject_Z v)) eqn:D; [|reflexivity].
    apply Qle_bool_iff in D. rewrite <- Zle_Qle in D. apply Z.leb_le in D. congruence.
Qed.

Lemma magnitude_up_spec (x : Q) (v : Z) (fuel : nat) :
  (x == inject_Z v)%Q ->
  forall n, 1 <= n -> 10 ^ (n - 1) <= v -> v < 10 ^ (n + Z.of_nat fuel) ->
  let r := magnitude_up fuel x n in
  n <= r /\ 10 ^ (r - 1) <= v < 10 ^ r.
Proof.
  intros E. induction fuel as [|f IH]; intros n Hn L U; cbn [magnitude_up].
  - rewrite Z.add_0_r in U. cbv zeta. lia.
  - rewrite (Qle_bool_pow10 x v n E) by lia.
    destruct (10 ^ n <=? v) eqn:C.
    + apply Z.leb_le in C.
      destruct (IH (n + 1) ltac:(lia)) as [G B].
      * now replace (n + 1 - 1) with n by lia.
      * replace (n + 1 + Z.of_nat f) with (n + Z.of_nat (S f)) by lia. exact U.
      * cbv zeta. split; [lia|exact B].
    + apply Z.leb_gt in C. cbv zeta. lia.
Qed.

Lemma small_lt_pow10 (v : Z) : v < 2 ^ 53 -> v < 10 ^ 16.
Proof. intros H. change (2 ^ 53) with 9007199254740992 in H.
  change (10 ^ 16) with 10000000000000000. lia. Qed.

Lemma magnitude_small (v : positive) :
  Zpos v < 2 ^ 53 ->
  let M := magnitude (real_of (small_mantissa v) (small_exponent v)) in
  1 <= M <= 16 /\ 10 ^ (M - 1) <= Zpos v < 10 ^ M.
Proof.
  intros H. pose proof (real_of_small v H) as E.
  unfold magnitude.
  assert (Qle_bool 1 (real_of (small_mantissa v) (small_exponent v)) = true) as ->.
  { change 1%Q with (Qpower 10 0). rewrite (Qle_bool_pow10 _ (Zpos v) 0 E) by lia.
    apply Z.leb_le. simpl. lia. }
  destruct (magnitude_up_spec _ (Zpos v) 400 E 1 ltac:(lia)) as [G B].
  - simpl. lia.
  - pose proof (small_lt_pow10 _ H).
    assert (10 ^ 16 <= 10 ^ (1 + Z.of_nat 400)) by (apply Z.pow_le_mono_r; lia).
    lia.
  - cbv zeta in *. split; [|exact B]. split; [exact G|].
    destruct (Z_le_gt_dec (magnitude_up 400 (real_of (small_mantissa v) (small_exponent v)) 1) 16)
      as [|W]; [assumption|exfalso].
    assert (10 ^ 16 <= 10 ^ (magnitude_up 400
              (real_of (small_mantissa v) (small_exponent v)) 1 - 1))
      by (apply Z.pow_le_mono_r; lia).
    pose proof (small_lt_pow10 _ H). lia.
Qed.

Lemma pow10_value (p : Z) : 0 <= p -> Zpos (pow10 p) = 10 ^ p.
Proof.
  intros H. unfold pow10. apply Z2Pos.id. now apply Z.pow_pos_nonneg.
Qed.

(** A candidate with a non-negative exponent that rounds to the Number of
    [v] denotes [v]. *)
Lemma rounds_to_small (v : positive) (s p : Z) :
  Zpos v < 2 ^ 53 -> 0 <= p ->
  rounds_to (small_mantissa v) (small_exponent v) (s, p) = true ->
  0 < s /\ s * 10 ^ p = Zpos v.
Proof.
  intros H Hp R. unfold rounds_to in R. cbn [fst snd] in R.
  destruct s as [|s'|s']; try discriminate.
  split; [lia|].
  unfold number_of_decimal in R.
  replace (0 <=? p) with true in R by (symmetry; now apply Z.leb_le).
  destruct (binary_round prec emax false (s' * pow10 p) 0) as [| | |sg m' e'] eqn:E;
    try discriminate.
  destruct sg; try discriminate.
  apply andb_true_iff in R as [Rm Re].
  apply Pos.eqb_eq in Rm. apply Z.eqb_eq in Re. subst m' e'.
  rewrite <- (binary_round_small v H) in E.
  apply (binary_round_small_inj v _ H) in E.
  rewrite <- E, Pos2Z.inj_mul, pow10_value by exact Hp. reflexivity.
Qed.

Lemma candidates_small (v : positive) (k s p : Z) :
  Zpos v < 2 ^ 53 ->
  let m := small_mantissa v in
  let e := small_exponent v in
  k <= magnitude (real_of m e) ->
  In (s, p) (candidates m e k) ->
  0 <= p /\ 0 < s /\ s * 10 ^ p = Zpos v /\ 10 ^ (k - 1) <= s < 10 ^ k.
Proof.
  intros H m e Hk I. unfold candidates in I.
  apply List.filter_In in I as [I F]. cbn [fst] in F.
  apply andb_true_iff in F as [Fd Fr].
  apply List.in_flat_map in I as (n & Hn & I).
  assert (Hp : 0 <= p).
  { cbv zeta in I. fold m e in Hn.
    destruct Hn as [<-|[<-|[]]]; destruct I as [I|[I|[]]];
      injection I as _ <-; lia. }
  destruct (rounds_to_small v s p H Hp Fr) as [Hs Hv].
  repeat split; try assumption; now apply has_digits_spec.
Qed.

Lemma candidates_exact (v : positive) :
  Zpos v < 2 ^ 53 ->
  let m := small_mantissa v in
  let e := small_exponent v in
  In (Zpos v, 0) (candidates m e (magnitude (real_of m e))).
Proof.
  intros H m e. destruct (magnitude_small v H) as [HM B]. fold m e in HM, B.
  cbv zeta in HM, B.
  unfold candidates. apply List.filter_In. split.
  - apply List.in_flat_map. exists (magnitude (real_of m e)). split; [now left|].
    cbv zeta. rewrite Z.sub_diag. left. f_equal.
    rewrite <- (Qfloor_Z (Zpos v)). apply Qfloor_comp.
    change (Qpower 10 0) with 1%Q. unfold Qdiv.
    change (/ 1)%Q with 1%Q. rewrite Qmult_1_r. apply (real_of_small v H).
  - cbn [fst]. apply andb_true_iff. split.
    + now apply has_digits_spec.
    + unfold rounds_to. cbn [fst snd]. unfold number_of_decimal.
      cbn [Z.leb Z.compare]. change (pow10 0) with 1%positive.
      rewrite Pos.mul_1_r, (binary_round_small v H).
      fold m e. now rewrite Pos.eqb_refl, Z.eqb_refl.
Qed.

Lemma closer_cases (x : Q) (a b : Z * Z) : closer x a b = a \/ closer x a b = b.
Proof.
  unfold closer. destruct (distance x a ?= distance x b)%Q; auto.
  destruct (Z.even (fst a)); auto.
Qed.

Lemma best_In (x : Q) (cs : list (Z * Z)) (sp : Z * Z) :
  best x cs = Some sp -> In sp cs.
Proof.
  destruct cs as [|c cs]; [discriminate|]. cbn [best]. intros E. injection E as <-.
  revert c. induction cs as [|d cs IH]; intros c; cbn [List.fold_left].
  - now left.
  - destruct (closer_cases x c d) as [->| ->].
    + destruct (IH c) as [<-|I]; [now left|right; now right].
    + right. apply IH.
Qed.

Lemma best_None (x : Q) (cs : list (Z * Z)) : best x cs = None -> cs = [].
Proof. destruct cs; [reflexivity|discriminate]. Qed.

Lemma shortest_from_small (v : positive) (fuel : nat) :
  Zpos v < 2 ^ 53 ->
  let m := small_mantissa v in
  let e := small_exponent v in
  let M := magnitude (real_of m e) in
  forall k, 1 <= k <= M -> M - k < Z.of_nat fuel ->
  exists s p j,
    shortest_from fuel m e k = Some (s, p)
    /\ 0 <= p /\ s * 10 ^ p = Zpos v /\ 1 <= j /\ 10 ^ (j - 1) <= s < 10 ^ j.
Proof.
  intros H m e M. induction fuel as [|f IH]; intros k Hk Hf; [lia|].
  cbn [shortest_from]. fold m e.
  destruct (best (real_of m e) (candidates m e k)) as [[s p]|] eqn:B.
  - apply best_In in B.
    destruct (candidates_small v k s p H ltac:(fold m e M; lia) B) as (Hp & Hs & Hv & Hd).
    exists s, p, k. repeat split; try assumption; lia.
  - apply best_None in B.
    assert (k <> M).
    { intros K. pose proof (candidates_exact v H) as I. cbv zeta in I.
      fold m e in I. fold M in I. rewrite <- K, B in I. destruct I. }
    apply IH; lia.
Qed.

Lemma exact_decimal_small (v : positive) :
  Zpos v < 2 ^ 53 ->
  Zpos v <= fst (exact_decimal (small_mantissa v) (small_exponent v)).
Proof.
  intros H. destruct (shl_align_small v H) as (_ & _ & M & B).
  unfold exact_decimal. destruct (0 <=? small_exponent v) eqn:E; cbn [fst]; rewrite M.
  - apply Z.leb_le in E. replace (small_exponent v) with 0 by lia. simpl. lia.
  - assert (0 < 2 ^ (- small_exponent v)) by (apply Z.pow_pos_nonneg; lia).
    assert (0 < 5 ^ (- small_exponent v)) by (apply Z.pow_pos_nonneg; lia).
    nia.
Qed.

(** For an integer below [2^53], [toString] gives its decimal digits and
    nothing else. *)
Theorem Number_toString_small (v : positive) :
  Zpos v < 2 ^ 53 ->
  let r := Number_toString (number_of_N false (Npos v)) in
  List.forallb is_digit r = true
  /\ forall n, Zpos v < 10 ^ n -> 0 <= n -> Z.of_nat (List.length r) <= n.
Proof.
  intros H. cbn [number_of_N]. unfold number_of_decimal. cbn [Z.leb Z.compare].
  change (pow10 0) with 1%positive. rewrite Pos.mul_1_r, (binary_round_small v H).
  cbn [Number_toString app].
  set (m := small_mantissa v). set (e := small_exponent v).
  destruct (magnitude_small v H) as [HM BM]. fold m e in HM, BM. cbv zeta in HM, BM.
  set (M := magnitude (real_of m e)) in *.
  destruct (shortest_from_small v (bits (fst (exact_decimal m e))) H 1) as
    (s & p & j & E & Hp & Hv & Hj & Bj).
  - fold m e M. lia.
  - fold m e M. pose proof (exact_decimal_small v H) as G. fold m e in G.
    pose proof (bits_ge (fst (exact_decimal m e)) M ltac:(lia) ltac:(lia)). lia.
  - unfold shortest. fold m e in E. rewrite E.
    assert (PJ : p + j = M).
    { apply (magnitude_unique (Zpos v)); try lia.
      rewrite <- Hv. 
      replace (p + j - 1) with (p + (j - 1)) by lia.
      rewrite !Z.pow_add_r by lia.
      assert (0 < 10 ^ p) by (apply Z.pow_pos_nonneg; lia). nia. }
    destruct (format_decimal_integer s p j Hj Bj Hp ltac:(lia)) as [D L].
    cbv zeta. split; [exact D|].
    intros n Hn Hn0. rewrite L, PJ.
    destruct (Z_le_gt_dec M n) as [|G]; [assumption|exfalso].
    assert (10 ^ n <= 10 ^ (M - 1)) by (apply Z.pow_le_mono_r; lia). lia.
Qed.

(** Integer mode below [2^53]: a non-empty string of digits is processed
    to a string of digits that is no longer. *)
Theorem Number_toString_digits (s : jsstring) :
  List.forallb is_digit s = true -> s <> [] ->
  Z.of_N (dec_value s) < 2 ^ 53 ->
  List.forallb is_digit (Number_toString (Number s)) = true
  /\ (List.length (Number_toString (Number s)) <= List.length s)%nat.
Proof.
  intros Hd Hne Hv. rewrite (Number_digits s Hd Hne).
  destruct (digits_value_digits s 0 Hd) as (v & Ev & Bv).
  assert (DV : dec_value s = v) by (unfold dec_value; now rewrite Ev).
  rewrite DV in *.
  destruct v as [|v'].
  - cbn. split; [reflexivity|]. destruct s; [contradiction|simpl; lia].
  - destruct (Number_toString_small v' Hv) as [D L]. split; [exact D|].
    specialize (L (Z.of_nat (List.length s))).
    assert (Zpos v' < 10 ^ Z.of_nat (List.length s)).
    { change (Zpos v') with (Z.of_N (Npos v')).
      replace (10 ^ Z.of_nat (List.length s))
        with (Z.of_N (10 ^ N.of_nat (List.length s))).
      - lia.
      - rewrite N2Z.inj_pow. f_equal. lia. }
    lia.
Qed.

Lemma dec_value_short (s : jsstring) :
  List.forallb is_digit s = true -> (List.length s <= 15)%nat ->
  Z.of_N (dec_value s) < 2 ^ 53.
Proof.
  intros Hd Hl. destruct (digits_value_digits s 0 Hd) as (v & Ev & Bv).
  unfold dec_value. rewrite Ev.
  assert (10 ^ N.of_nat (List.length s) <= 10 ^ 15)%N
    by (apply N.pow_le_mono_r; lia).
  change (2 ^ 53) with 9007199254740992.
  change (10 ^ 15)%N with 1000000000000000%N in *. lia.
Qed.

(** In integer mode the result consists of digits as long as the digits
    that remain denote a value below [2^53], in particular when at most 15
    digits remain. *)
Lemma applyNumericCompliance_integer_digits (value : jsstring)
    (o : NumericInputOptions) :
  integer o = true ->
  Z.of_N (dec_value (strip_non_digits value)) < 2 ^ 53 ->
  List.forallb is_digit (applyNumericCompliance value o) = true.
Proof.
  intros Hi Hv. unfold applyNumericCompliance. rewrite Hi.
  pose proof (strip_non_digits_all_digits value) as D.
  destruct (strip_non_digits value) as [|d ds] eqn:Q.
  - cbn [is_empty negb orb]. destruct (preventEmpty o); reflexivity.
  - cbn [is_empty negb orb].
    now apply (Number_toString_digits (d :: ds) D ltac:(discriminate)).
Qed.

(** ** Length restriction *)

(** C6, amended. With a positive [maxLength], the length restriction cuts
    the value to at most [maxLength] code units.  The cut value is the
    result when no numeric mode is configured, and it is what numeric
    compliance receives otherwise.  In integer mode [Number] is handed a
    string of at most [maxLength] digits, and for a [maxLength] of at most
    15 the result is again no longer than [maxLength]. *)
Theorem processInputValue_maxLength (error_value : Type)
    (c : InputComponent error_value) (value : jsstring) (m : Z) :
  maxLength c = Some m ->
  0 < m ->
  Z.of_nat (List.length (substr0 value m)) <= m
  /\ (numeric c = None ->
      processInputValue c value = substr0 value m
      /\ Z.of_nat (List.length (processInputValue c value)) <= m)
  /\ (forall o, numeric c = Some o ->
      processInputValue c value = applyNumericCompliance (substr0 value m) o)
  /\ (forall o, numeric c = Some o -> integer o = true ->
      let digits := strip_non_digits (substr0 value m) in
      List.forallb is_digit digits = true
      /\ Z.of_nat (List.length digits) <= m
      /\ processInputValue c value
         = (if negb (is_empty digits) || preventEmpty o
            then Number_toString (Number digits)
            else digits)
      /\ (m <= 15 ->
          Z.of_nat (List.length (processInputValue c value)) <= m)).
Proof.
  intros Hm Hpos.
  assert (L : Z.of_nat (List.length (substr0 value m)) <= m)
    by (apply length_substr0; lia).
  rewrite (processInputValue_clamped error_value c value m Hm Hpos).
  split; [exact L|split; [|split]].
  - intros ->. now split.
  - now intros o ->.
  - intros o -> Hi digits.
    assert (D : List.forallb is_digit digits = true)
      by apply strip_non_digits_all_digits.
    assert (Ld : Z.of_nat (List.length digits) <= m)
      by (pose proof (length_strip_non_digits (substr0 value m));
          subst digits; lia).
    assert (E : applyNumericCompliance (substr0 value m) o
                = if negb (is_empty digits) || preventEmpty o
                  then Number_toString (Number digits)
                  else digits)
      by (unfold applyNumericCompliance; now rewrite Hi).
    repeat split; try assumption.
    intros H15. rewrite E.
    destruct digits as [|d ds] eqn:Q.
    + cbn [is_empty negb orb]. destruct (preventEmpty o); simpl; lia.
    + cbn [is_empty negb orb].
      destruct (Number_toString_digits (d :: ds) D ltac:(discriminate)) as [_ B].
      * apply dec_value_short; [exact D|lia].
      * lia.
Qed.

(** ** The Number model on known values *)

Example Number_empty : Number_toString (Number []) = lit "0".
Proof. reflexivity. Qed.

Example Number_blank : Number_toString (Number (lit "  ")) = lit "0".
Proof. vm_compute. reflexivity. Qed.

Example Number_leading_zeros : Number_toString (Number (lit "007")) = lit "7".
Proof. vm_compute. reflexivity. Qed.

Example Number_not_a_number : Number_toString (Number (lit "12px")) = lit "NaN".
Proof. vm_compute. reflexivity. Qed.

Example Number_hexadecimal : Number_toString (Number (lit "0x1F")) = lit "31".
Proof. vm_compute. reflexivity. Qed.

Example Number_fraction : Number_toString (Number (lit "+.5")) = lit "0.5".
Proof. vm_compute. reflexivity. Qed.

Example Number_one_tenth : Number (lit "0.1") = S754_finite false 7205759403792794 (-56).
Proof. vm_compute. reflexivity. Qed.

Example Number_shortest_digits :
  Number_toString (Number (lit "0.30000000000000004")) = lit "0.30000000000000004".
Proof. vm_compute. reflexivity. Qed.

Example Number_small_exponent : Number_toString (Number (lit "0.0000001")) = lit "1e-7".
Proof. vm_compute. reflexivity. Qed.

Example Number_past_2_53 :
  Number_toString (Number (lit "9007199254740993")) = lit "9007199254740992".
Proof. vm_compute. reflexivity. Qed.

Example Number_twenty_nines :
  Number_toString (Number (lit "99999999999999999999")) = lit "100000000000000000000".
Proof. vm_compute. reflexivity. Qed.

Example Number_largest_plain :
  Number_toString (Number (lit "123456789012345680000")) = lit "123456789012345680000".
Proof. vm_compute. reflexivity. Qed.

Example Number_overflow : Number_toString (Number (lit "1e400")) = lit "Infinity".
Proof. vm_compute. reflexivity. Qed.

(** ** The claims on concrete inputs *)

(** C1. In integer mode a string of twenty-two digits is processed to a
    string that holds [e] and [+]: once the digits denote 10^21 or more,
    [Number(...).toString()] answers in exponent notation.  Typed into the
    field, the value is written back to the element and emitted by
    [valueChange]. *)
Theorem integer_mode_exponent_notation :
  let o := {| integer := true; preventEmpty := false; percents := false |} in
  let typed := lit "1000000000000000000000" in
  List.forallb is_digit typed = true
  /\ applyNumericCompliance typed o = lit "1e+21"
  /\ List.forallb is_digit (applyNumericCompliance typed o) = false
  /\ snd (onInputElementInput typed
            (with_inputs None None (Some o) (created unit)))
     = [SetInputValue (lit "1e+21") true; ValueChangeEmit (lit "1e+21")].
Proof. vm_compute. repeat split. Qed.

(** C6, as stated, fails: with [maxLength] 16 in integer mode, sixteen
    nines are processed to the seventeen characters of 10^16; with
    [maxLength] 1 and [integer] off, one letter is processed to ["NaN"]. *)
Lemma processInputValue_exceeds_maxLength :
  maxLength (sixteenDigits unit) = Some 16
  /\ processInputValue (sixteenDigits unit) (lit "9999999999999999")
     = lit "10000000000000000"
  /\ Z.of_nat (List.length (processInputValue (sixteenDigits unit) (lit "9999999999999999")))
     = 17
  /\ maxLength (oneCharacter unit) = Some 1
  /\ processInputValue (oneCharacter unit) (lit "a") = lit "NaN"
  /\ ~ (forall (c : InputComponent unit) (value : jsstring) (m : Z),
          maxLength c = Some m -> 0 < m ->
          Z.of_nat (List.length (processInputValue c value)) <= m).
Proof.
  evaluate.
  intros H. specialize (H (oneCharacter unit) (lit "a") 1 eq_refl eq_refl).
  vm_compute in H. now apply H.
Qed.

Lemma processInputValue_maxLength_witness :
  maxLength (with_inputs None (Some 3) None (created unit)) = Some 3
  /\ 0 < 3
  /\ processInputValue (with_inputs None (Some 3) None (created unit))
       (lit "abcdef") = lit "abc".
Proof.
  split; [reflexivity|split; [reflexivity|]].
  exact (proj1 (proj1 (proj2
    (processInputValue_maxLength unit
       (with_inputs None (Some 3) None (created unit)) (lit "abcdef") 3
       eq_refl eq_refl)) eq_refl)).
Defined.

(** C9, as stated, fails: without the [integer] flag a string without
    digits is handed to [Number] as it is, and a letter comes back as
    ["NaN"] whatever [preventEmpty] says. *)
Lemma no_digits_without_integer_flag :
  List.existsb is_digit (lit "a") = false
  /\ applyNumericCompliance (lit "a")
       {| integer := false; preventEmpty := true; percents := false |}
     = lit "NaN"
  /\ applyNumericCompliance (lit "a")
       {| integer := false; preventEmpty := false; percents := false |}
     = lit "NaN"
  /\ ~ (forall (value : jsstring) (o : NumericInputOptions),
          List.existsb is_digit value = false ->
          applyNumericCompliance value o
          = if preventEmpty o then lit "0" else []).
Proof.
  evaluate.
  intros H.
  specialize (H (lit "a")
                {| integer := false; preventEmpty := true; percents := false |}
                eq_refl).
  vm_compute in H. discriminate H.
Qed.

Lemma no_digits_in_integer_mode_witness :
  integer {| integer := true; preventEmpty := true; percents := false |} = true
  /\ List.existsb is_digit (lit "abc") = false
  /\ applyNumericCompliance (lit "abc")
       {| integer := true; preventEmpty := true; percents := false |}
     = lit "0".
Proof.
  split; [reflexivity|split; [reflexivity|]].
  exact (proj1
    (no_digits_in_integer_mode unit (created unit) (lit "abc")
       {| integer := true; preventEmpty := true; percents := false |}
       eq_refl eq_refl)).
Defined.

Lemma unfocused_percents_appends_percent_sign_witness :
  numeric (onInputElementBlur (percentField unit))
  = Some {| integer := true; preventEmpty := false; percents := true |}
  /\ currentValue (onInputElementBlur (percentField unit)) = lit "12"
  /\ elementValue (fst (commitProperties (onInputElementBlur (percentField unit))))
     = lit "12%".
Proof.
  split; [reflexivity|split; [reflexivity|]].
  exact (proj2 (proj1 (proj2
    (unfocused_percents_appends_percent_sign unit
       (onInputElementBlur (percentField unit))
       {| integer := true; preventEmpty := false; percents := true |}
       eq_refl eq_refl)) eq_refl eq_refl eq_refl eq_refl)).
Defined.

Lemma unchanged_value_is_not_propagated_witness :
  processInputValue (percentField unit) (valueToString (VString (lit "12a")))
  = currentValue (percentField unit)
  /\ propagations
       (snd (valueStream_next (VString (lit "12a")) (percentField unit)))
     = []
  /\ propagations
       (snd (valueStream_next (VString (lit "3")) (percentField unit)))
     = [ValueChangeEmit (lit "3")].
Proof.
  split; [vm_compute; reflexivity|]. split.
  - refine (proj1 (proj1 (unchanged_value_is_not_propagated unit
                            (VString (lit "12a")) (percentField unit)) _)).
    vm_compute; reflexivity.
  - refine (proj1 (proj2 (proj2 (unchanged_value_is_not_propagated unit
                            (VString (lit "3")) (percentField unit))) _ _)).
    + vm_compute; discriminate.
    + reflexivity.
Defined.

(** C10, as stated, fails: on a component whose occurrence flags were never
    assigned, a batch with only a blur leaves [undefined] in [focused],
    where the claim has [false]. *)
Lemma blur_only_batch_leaves_undefined :
  focused (created unit) = Some false
  /\ inputBlurOccured (onInputElementBlur (created unit)) = Some true
  /\ mouseDownOccured (onInputElementBlur (created unit)) = None
  /\ inputFocusOccured (onInputElementBlur (created unit)) = None
  /\ focused (fst (commitProperties (onInputElementBlur (created unit))))
     = None
  /\ focused (fst (run (fun _ _ => [])
                     [InputElementBlur unit; DebounceElapsed unit]
                     (created unit)))
     = None
  /\ ~ (forall c : InputComponent unit,
          truthy (mouseDownOccured c) || truthy (inputFocusOccured c)
            || truthy (inputBlurOccured c) = true ->
          focused (fst (commitProperties c))
          = Some (truthy (mouseDownOccured c)
                  || truthy (inputFocusOccured c))).
Proof.
  evaluate.
  intros H.
  specialize (H (onInputElementBlur (created unit)) eq_refl).
  vm_compute in H. discriminate H.
Qed.

Lemma commitProperties_resets_occurrences_witness :
  truthy (mouseDownOccured (onInputElementBlur (created unit)))
    || truthy (inputFocusOccured (onInputElementBlur (created unit)))
    || truthy (inputBlurOccured (onInputElementBlur (created unit)))
  = true
  /\ inputBlurOccured
       (fst (commitProperties (onInputElementBlur (created unit))))
     = Some false
  /\ truthy (focused
               (fst (commitProperties (onInputElementBlur (created unit)))))
     = false.
Proof.
  split; [reflexivity|].
  pose proof (commitProperties_resets_occurrences unit
                (onInputElementBlur (created unit)) eq_refl) as H.
  cbv zeta in H. destruct H as (_ & _ & Hb & _ & _ & Hf & _).
  split; [exact Hb|exact (Hf eq_refl eq_refl)].
Defined.

Lemma displayed_and_stored_value_agree_witness :
  consistent (created unit)
  /\ destroyed (fst (run (fun _ _ => []) (session unit) (created unit)))
     = false
  /\ currentValue (fst (run (fun _ _ => []) (session unit) (created unit)))
     = lit "75"
  /\ elementValue (fst (run (fun _ _ => []) (session unit) (created unit)))
     = lit "75%"
  /\ consistent (fst (run (fun _ _ => []) (session unit) (created unit))).
Proof.
  split; [left; reflexivity|].
  split; [vm_compute; reflexivity|].
  split; [vm_compute; reflexivity|].
  split; [vm_compute; reflexivity|].
  apply (displayed_and_stored_value_agree unit (fun _ _ => [])
           (session unit) (created unit)).
  - left; reflexivity.
  - vm_compute; reflexivity.
Defined.


Lemma null_and_undefined_become_empty_witness :
  destroyed (registerOnChange unit (Some 0%nat) (percentField unit)) = false
  /\ currentValue (registerOnChange unit (Some 0%nat) (percentField unit))
     = lit "12"
  /\ currentValue
       (fst (writeValue VNull
               (registerOnChange unit (Some 0%nat) (percentField unit))))
     = []
  /\ snd (writeValue VNull
            (registerOnChange unit (Some 0%nat) (percentField unit)))
     = [SetInputValue [] true; PropagateChange 0 []; ValueChangeEmit []]
  /\ snd (writeValue VUndefined
            (registerOnChange unit (Some 0%nat) (percentField unit)))
     = [SetInputValue [] true; PropagateChange 0 []; ValueChangeEmit []].
Proof.
  split; [reflexivity|].
  split; [vm_compute; reflexivity|].
  pose proof (proj2 (proj2 (proj2 (proj2 (proj2 (proj2 (proj2
                (null_and_undefined_become_empty unit
                   (registerOnChange unit (Some 0%nat)
                      (percentField unit)))))))))
                eq_refl) as H.
  destruct (H VNull (or_introl eq_refl)) as [(Hc & _ & Hs) _].
  destruct (H VUndefined (or_intror eq_refl)) as [(_ & _ & Hu) _].
  split; [rewrite Hc; vm_compute; reflexivity|].
  split; [rewrite Hs; vm_compute; reflexivity|].
  rewrite Hu; vm_compute; reflexivity.
Defined.

Lemma ngDoCheck_error_witness :
  error
    (ngDoCheck (fun key _ => key)
       (with_inputs
          (Some {| control :=
                     Some {| errors := Some [(lit "required", tt);
                                             (lit "minlength", tt)] |} |})
          None None (created unit)))
  = lit "required" ++ [8%N] ++ lit "minlength".
Proof.
  refine (proj1 (ngDoCheck_error unit (fun key _ => key)
            (with_inputs
               (Some {| control :=
                          Some {| errors := Some [(lit "required", tt);
                                                  (lit "minlength", tt)] |} |})
               None None (created unit)))
            _ _ _ eq_refl eq_refl eq_refl _).
  repeat constructor; simpl; intuition discriminate.
Defined.

(** * Further properties of the component *)

Arguments debounceElapsed {error_value} c.
Arguments ngOnDestroy {error_value} c.
Arguments invalidateProperties {error_value} c.
Arguments onHostElementMouseDown {error_value} c.
Arguments onInputElementFocus {error_value} c.
Arguments registerOnChange {error_value} fn c.
Arguments with_subscriptions {error_value} d p c.
Arguments with_focused {error_value} f c.
Arguments with_elementValue {error_value} v c.
Arguments with_currentValue {error_value} v c.
Arguments with_error {error_value} e c.
Arguments with_propagateChange {error_value} fn c.


(** ** Reading digits back *)

Lemma digits_of_app (fuel : nat) :
  forall (z : Z) (acc : jsstring),
    digits_of fuel z acc = digits_of fuel z [] ++ acc.
Proof.
  induction fuel as [|f IH]; intros z acc; cbn [digits_of]; [reflexivity|].
  destruct (z <? 10); [reflexivity|].
  rewrite (IH (z / 10) (_ :: acc)), (IH (z / 10) [_]), <- List.app_assoc.
  reflexivity.
Qed.

Lemma digits_value_app (radix : N) (xs ys : jsstring) :
  forall acc,
    digits_value radix acc (xs ++ ys)
    = match digits_value radix acc xs with
      | Some a => digits_value radix a ys
      | None => None
      end.
Proof.
  induction xs as [|x xs IH]; intros acc; cbn [app digits_value]; [reflexivity|].
  destruct (digit_value radix x); [apply IH|reflexivity].
Qed.

Lemma digit_value_of_Z (r : Z) :
  0 <= r < 10 -> digit_value 10 (Z.to_N (48 + r)) = Some (Z.to_N r).
Proof.
  intros H.
  assert (K : r = 0 \/ r = 1 \/ r = 2 \/ r = 3 \/ r = 4 \/ r = 5 \/ r = 6
              \/ r = 7 \/ r = 8 \/ r = 9) by lia.
  repeat (destruct K as [->|K]; [reflexivity|]). subst r. reflexivity.
Qed.

Lemma digits_value_digits_of (fuel : nat) :
  forall (z k : Z),
    1 <= k -> 10 ^ (k - 1) <= z < 10 ^ k -> k <= Z.of_nat fuel ->
    digits_value 10 0 (digits_of fuel z []) = Some (Z.to_N z).
Proof.
  induction fuel as [|f IH]; intros z k Hk [L U] Hf; [lia|].
  assert (Z0 : 0 < z) by (pose proof (Z.pow_pos_nonneg 10 (k - 1)); lia).
  cbn [digits_of].
  pose proof (Z.mod_pos_bound z 10 ltac:(lia)) as Hr.
  destruct (z <? 10) eqn:E.
  - apply Z.ltb_lt in E. cbn [digits_value].
    rewrite (digit_value_of_Z _ Hr). rewrite Z.mod_small by lia. reflexivity.
  - apply Z.ltb_ge in E.
    assert (K2 : 2 <= k).
    { destruct (Z_le_gt_dec 2 k) as [|G]; [assumption|exfalso].
      assert (k = 1) by lia. subst k. simpl in U. lia. }
    assert (B : 10 ^ (k - 1 - 1) <= z / 10 < 10 ^ (k - 1)).
    { replace (k - 1) with (Z.succ (k - 1 - 1)) in L by lia.
      rewrite Z.pow_succ_r in L by lia.
      replace k with (Z.succ (k - 1)) in U at 1 by lia.
      rewrite Z.pow_succ_r in U by lia.
      split.
      - apply Z.div_le_lower_bound; lia.
      - apply Z.div_lt_upper_bound; lia. }
    rewrite digits_of_app, digits_value_app.
    rewrite (IH (z / 10) (k - 1) ltac:(lia) B ltac:(lia)).
    cbn [digits_value]. rewrite (digit_value_of_Z _ Hr). f_equal.
    pose proof (Z.div_mod z 10 ltac:(lia)).
    assert (0 <= z / 10) by (apply Z.div_pos; lia). lia.
Qed.

Lemma digits_value_zeros (n : nat) :
  forall acc, digits_value 10 acc (List.repeat 48%N n) = Some (acc * 10 ^ N.of_nat n)%N.
Proof.
  induction n as [|n IH]; intros acc.
  - simpl. f_equal. lia.
  - cbn [List.repeat].
    change (digits_value 10 acc (48%N :: List.repeat 48%N n))
      with (digits_value 10 (acc * 10 + 0)%N (List.repeat 48%N n)).
    rewrite IH. f_equal.
    replace (N.of_nat (S n)) with (N.succ (N.of_nat n)) by lia.
    rewrite N.pow_succ_r'. lia.
Qed.

Lemma format_decimal_integer_eq (s p k : Z) :
  1 <= k -> 10 ^ (k - 1) <= s < 10 ^ k -> 0 <= p -> p + k <= 21 ->
  format_decimal s p = decimal_digits s ++ zeros p.
Proof.
  intros Hk B Hp Hn. destruct (decimal_digits_spec s k Hk B) as [L D].
  unfold format_decimal. rewrite L.
  replace ((k <=? p + k) && (p + k <=? 21)) with true
    by (symmetry; apply andb_true_iff; split; apply Z.leb_le; lia).
  now replace (p + k - k) with p by lia.
Qed.

(** The digits [toString] gives an integer below [2^53]: shortest digits
    [s] followed by [p] zeros, which denote the integer. *)
Lemma Number_toString_small_digits (v : positive) :
  Zpos v < 2 ^ 53 ->
  exists s p j,
    Number_toString (number_of_N false (Npos v)) = decimal_digits s ++ zeros p
    /\ 0 <= p /\ s * 10 ^ p = Zpos v /\ 1 <= j /\ 10 ^ (j - 1) <= s < 10 ^ j
    /\ p + j <= 16.
Proof.
  intros H. cbn [number_of_N]. unfold number_of_decimal. cbn [Z.leb Z.compare].
  change (pow10 0) with 1%positive. rewrite Pos.mul_1_r, (binary_round_small v H).
  cbn [Number_toString app].
  set (m := small_mantissa v). set (e := small_exponent v).
  destruct (magnitude_small v H) as [HM BM]. fold m e in HM, BM. cbv zeta in HM, BM.
  set (M := magnitude (real_of m e)) in *.
  destruct (shortest_from_small v (bits (fst (exact_decimal m e))) H 1) as
    (s & p & j & E & Hp & Hv & Hj & Bj).
  - fold m e M. lia.
  - fold m e M. pose proof (exact_decimal_small v H) as G. fold m e in G.
    pose proof (bits_ge (fst (exact_decimal m e)) M ltac:(lia) ltac:(lia)). lia.
  - unfold shortest. fold m e in E. rewrite E.
    assert (PJ : p + j = M).
    { apply (magnitude_unique (Zpos v)); try lia.
      rewrite <- Hv.
      replace (p + j - 1) with (p + (j - 1)) by lia.
      rewrite !Z.pow_add_r by lia.
      assert (0 < 10 ^ p) by (apply Z.pow_pos_nonneg; lia). nia. }
    exists s, p, j. rewrite (format_decimal_integer_eq s p j Hj Bj Hp ltac:(lia)).
    repeat split; try assumption; lia.
Qed.

Lemma dec_value_decimal (s p j : Z) :
  1 <= j -> 10 ^ (j - 1) <= s < 10 ^ j -> 0 <= p ->
  dec_value (decimal_digits s ++ zeros p) = Z.to_N (s * 10 ^ p).
Proof.
  intros Hj B Hp. unfold dec_value, decimal_digits, zeros.
  rewrite digits_value_app.
  rewrite (digits_value_digits_of (bits s) s j Hj B) by (apply bits_ge; lia).
  rewrite digits_value_zeros.
  assert (0 < s) by (pose proof (Z.pow_pos_nonneg 10 (j - 1)); lia).
  rewrite Z2N.inj_mul, Z2N.inj_pow by (try apply Z.pow_nonneg; lia).
  f_equal. f_equal. lia.
Qed.

(** Reading back what [toString] printed gives the integer again. *)
Lemma Number_toString_small_value (v : positive) :
  Zpos v < 2 ^ 53 ->
  let r := Number_toString (number_of_N false (Npos v)) in
  List.forallb is_digit r = true
  /\ dec_value r = Npos v
  /\ r <> []
  /\ 10 ^ (Z.of_nat (List.length r) - 1) <= Zpos v < 10 ^ Z.of_nat (List.length r).
Proof.
  intros H. destruct (Number_toString_small_digits v H) as
    (s & p & j & E & Hp & Hv & Hj & Bj & Hn).
  cbv zeta. rewrite E.
  destruct (decimal_digits_spec s j Hj Bj) as [L D].
  destruct (zeros_spec p) as [Zd Zl].
  assert (Len : Z.of_nat (List.length (decimal_digits s ++ zeros p)) = p + j)
    by (rewrite List.length_app, Zl; lia).
  split; [|split; [|split]].
  - now rewrite List.forallb_app, D, Zd.
  - rewrite (dec_value_decimal s p j Hj Bj Hp), Hv. reflexivity.
  - intros N. rewrite N in Len. simpl in Len. lia.
  - rewrite Len, <- Hv.
    replace (p + j - 1) with (p + (j - 1)) by lia.
    rewrite !Z.pow_add_r by lia.
    assert (0 < 10 ^ p) by (apply Z.pow_pos_nonneg; lia). nia.
Qed.

Lemma strip_non_digits_digits (s : jsstring) :
  List.forallb is_digit s = true -> strip_non_digits s = s.
Proof.
  unfold strip_non_digits. induction s as [|x s IH]; simpl; [reflexivity|].
  intros H. apply andb_true_iff in H as [-> Hs]. now rewrite IH.
Qed.

Lemma dec_value_digits (s : jsstring) :
  List.forallb is_digit s = true ->
  digits_value 10 0 s = Some (dec_value s).
Proof.
  intros H. destruct (digits_value_digits s 0 H) as (v & Ev & _).
  unfold dec_value. now rewrite Ev.
Qed.

(** What integer mode makes of a string with digits, below [2^53]. *)
Lemma integer_mode_small (value : jsstring) (o : NumericInputOptions) :
  integer o = true ->
  strip_non_digits value <> [] ->
  Z.of_N (dec_value (strip_non_digits value)) < 2 ^ 53 ->
  applyNumericCompliance value o
  = Number_toString (number_of_N false (dec_value (strip_non_digits value))).
Proof.
  intros Hi Hne Hv. unfold applyNumericCompliance. rewrite Hi.
  pose proof (strip_non_digits_all_digits value) as D.
  destruct (strip_non_digits value) as [|d ds] eqn:Q; [contradiction|].
  cbn [is_empty negb orb].
  now rewrite (Number_digits (d :: ds) D Hne).
Qed.

(** ** Sanitisation in integer mode below [2^53] *)

Lemma applyNumericCompliance_no_digits (o : NumericInputOptions) :
  applyNumericCompliance [] o = (if preventEmpty o then lit "0" else [])
  /\ applyNumericCompliance (lit "0") o = lit "0".
Proof.
  destruct o as [[|] [|] pc]; split; reflexivity.
Qed.

(** Sanitising a sanitised value changes nothing. *)
Lemma applyNumericCompliance_again (value : jsstring) (o : NumericInputOptions) :
  integer o = true ->
  Z.of_N (dec_value (strip_non_digits value)) < 2 ^ 53 ->
  applyNumericCompliance (applyNumericCompliance value o) o
  = applyNumericCompliance value o.
Proof.
  intros Hi Hv.
  destruct (strip_non_digits value) as [|d ds] eqn:Q.
  - assert (E : applyNumericCompliance value o
                = if preventEmpty o then lit "0" else []).
    { unfold applyNumericCompliance. rewrite Hi, Q. cbn [is_empty negb orb].
      destruct (preventEmpty o); reflexivity. }
    rewrite E. destruct (applyNumericCompliance_no_digits o) as [E0 E1].
    destruct (preventEmpty o) eqn:P; [exact E1|].
    exact E0.
  - assert (Hne : strip_non_digits value <> []) by (rewrite Q; discriminate).
    rewrite <- Q in Hv.
    rewrite (integer_mode_small value o Hi Hne Hv).
    destruct (dec_value (strip_non_digits value)) as [|v] eqn:V.
    + cbn [number_of_N Number_toString].
      apply (proj2 (applyNumericCompliance_no_digits o)).
    + destruct (Number_toString_small_value v Hv) as (D & W & N & _).
      set (r := Number_toString (number_of_N false (N.pos v))) in *.
      assert (S : strip_non_digits r = r) by now apply strip_non_digits_digits.
      rewrite (integer_mode_small r o Hi); rewrite S; try assumption.
      * now rewrite W.
      * rewrite W. exact Hv.
Qed.

Lemma strip_non_digits_percent (value : jsstring) :
  strip_non_digits (value ++ lit "%") = strip_non_digits value.
Proof.
  unfold strip_non_digits. rewrite List.filter_app. simpl.
  apply List.app_nil_r.
Qed.

Lemma applyNumericCompliance_decorated (value : jsstring)
    (n : option NumericInputOptions) (o : NumericInputOptions) :
  integer o = true ->
  applyNumericCompliance (getDecoratedValue value n) o
  = applyNumericCompliance value o.
Proof.
  intros Hi. destruct (getDecoratedValue_cases value n) as [->|[_ ->]];
    [reflexivity|].
  unfold applyNumericCompliance. rewrite Hi.
  now rewrite strip_non_digits_percent.
Qed.

(** ** Blank input *)

Lemma drop_ws_blank (s : jsstring) :
  List.forallb is_ws s = true -> drop_ws s = [].
Proof.
  induction s as [|c s IH]; [reflexivity|]. cbn [List.forallb drop_ws].
  intros H. apply andb_true_iff in H as [-> Hs]. now apply IH.
Qed.

Lemma Number_blank_string (s : jsstring) :
  List.forallb is_ws s = true -> Number s = S754_zero false.
Proof.
  intros H. unfold Number, trim. now rewrite (drop_ws_blank s H).
Qed.

(** ** Length restriction: idempotence *)

Lemma firstn_firstn_same {A} (n : nat) (l : list A) :
  List.firstn n (List.firstn n l) = List.firstn n l.
Proof. rewrite List.firstn_firstn. now rewrite Nat.min_id. Qed.

Lemma processInputValue_again_plain (E : Type) (c : InputComponent E)
    (value : jsstring) :
  numeric c = None ->
  processInputValue c (processInputValue c value) = processInputValue c value.
Proof.
  intros Hn. unfold processInputValue. rewrite Hn.
  destruct (maxLength c) as [m|]; [|reflexivity].
  destruct (negb (m =? 0)) eqn:Z0; cbn [andb]; [|reflexivity].
  destruct (Z.of_nat (List.length value) >? m) eqn:G.
  - unfold substr0.
    destruct (Z.of_nat (List.length (List.firstn (Z.to_nat m) value)) >? m);
      [apply firstn_firstn_same|reflexivity].
  - now rewrite G.
Qed.

Lemma processInputValue_again_integer (E : Type) (c : InputComponent E)
    (value : jsstring) (o : NumericInputOptions) (m : Z) :
  numeric c = Some o -> integer o = true ->
  maxLength c = Some m -> 0 < m <= 15 ->
  processInputValue c (processInputValue c value) = processInputValue c value.
Proof.
  intros Hn Hi Hm [Hpos H15].
  rewrite !(processInputValue_clamped E c _ m Hm Hpos), Hn.
  set (cut := substr0 value m).
  assert (Lc : Z.of_nat (List.length cut) <= m) by (apply length_substr0; lia).
  pose proof (length_strip_non_digits cut) as Ls.
  pose proof (strip_non_digits_all_digits cut) as D.
  assert (Hv : Z.of_N (dec_value (strip_non_digits cut)) < 2 ^ 53)
    by (apply dec_value_short; [exact D|lia]).
  assert (Lr : Z.of_nat (List.length (applyNumericCompliance cut o)) <= m).
  { destruct (strip_non_digits cut) as [|d ds] eqn:Q.
    - unfold applyNumericCompliance. rewrite Hi, Q. cbn [is_empty negb orb].
      destruct (preventEmpty o); simpl; lia.
    - unfold applyNumericCompliance. rewrite Hi, Q. cbn [is_empty negb orb].
      destruct (Number_toString_digits (d :: ds) D ltac:(discriminate) Hv) as [_ B].
      lia. }
  unfold substr0 at 1. rewrite List.firstn_all2 by lia.
  now apply applyNumericCompliance_again.
Qed.

(** ** Sanitisation *)

(** X1. In integer mode, a value with at least one digit whose digits
    denote a number below [2^53] becomes the decimal notation of that
    number: the result holds digits only and denotes the same number; it is
    ["0"] for zero and has no leading zero otherwise. *)
Theorem integer_mode_keeps_the_number (value : jsstring) (o : NumericInputOptions) :
  integer o = true ->
  strip_non_digits value <> [] ->
  Z.of_N (dec_value (strip_non_digits value)) < 2 ^ 53 ->
  let r := applyNumericCompliance value o in
  let v := dec_value (strip_non_digits value) in
  List.forallb is_digit r = true
  /\ dec_value r = v
  /\ (v = 0%N -> r = lit "0")
  /\ (v <> 0%N ->
      10 ^ (Z.of_nat (List.length r) - 1) <= Z.of_N v
      < 10 ^ Z.of_nat (List.length r)).
Proof.
  intros Hi Hne Hv r v. subst r.
  rewrite (integer_mode_small value o Hi Hne Hv). fold v. fold v in Hv.
  destruct v as [|v'].
  - cbn [number_of_N Number_toString]. repeat split; try reflexivity.
    intros N. now elim N.
  - destruct (Number_toString_small_value v' Hv) as (D & W & _ & B).
    repeat split; try assumption; try discriminate; apply B.
Qed.

Lemma integer_mode_keeps_the_number_witness :
  integer {| integer := true; preventEmpty := false; percents := false |} = true
  /\ strip_non_digits (lit "0x07 units") = lit "007"
  /\ applyNumericCompliance (lit "0x07 units")
       {| integer := true; preventEmpty := false; percents := false |}
     = lit "7"
  /\ dec_value (applyNumericCompliance (lit "0x07 units")
                  {| integer := true; preventEmpty := false; percents := false |})
     = dec_value (strip_non_digits (lit "0x07 units")).
Proof.
  split; [reflexivity|split; [reflexivity|split; [vm_compute; reflexivity|]]].
  refine (proj1 (proj2 (integer_mode_keeps_the_number (lit "0x07 units")
            {| integer := true; preventEmpty := false; percents := false |}
            eq_refl _ _))).
  - vm_compute. discriminate.
  - vm_compute. reflexivity.
Defined.

(** X2. In integer mode the percent sign of the decoration does not
    survive sanitisation: the decorated value is sanitised to what the value
    itself is sanitised to.  Below [2^53] sanitisation is idempotent, and
    the sanitised value read back from its decorated form is unchanged. *)
Theorem sanitised_value_is_stable (value : jsstring) (o : NumericInputOptions) :
  integer o = true ->
  (forall n, applyNumericCompliance (getDecoratedValue value n) o
             = applyNumericCompliance value o)
  /\ (Z.of_N (dec_value (strip_non_digits value)) < 2 ^ 53 ->
      applyNumericCompliance (applyNumericCompliance value o) o
      = applyNumericCompliance value o
      /\ forall n,
           applyNumericCompliance
             (getDecoratedValue (applyNumericCompliance value o) n) o
           = applyNumericCompliance value o).
Proof.
  intros Hi. split.
  - intros n. now apply applyNumericCompliance_decorated.
  - intros Hv. pose proof (applyNumericCompliance_again value o Hi Hv) as A.
    split; [exact A|]. intros n.
    now rewrite applyNumericCompliance_decorated.
Qed.

Lemma sanitised_value_is_stable_witness :
  integer {| integer := true; preventEmpty := true; percents := true |} = true
  /\ applyNumericCompliance (lit "012")
       {| integer := true; preventEmpty := true; percents := true |}
     = lit "12"
  /\ applyNumericCompliance
       (getDecoratedValue (lit "12")
          (Some {| integer := true; preventEmpty := true; percents := true |}))
       {| integer := true; preventEmpty := true; percents := true |}
     = applyNumericCompliance (lit "12")
         {| integer := true; preventEmpty := true; percents := true |}.
Proof.
  split; [reflexivity|split; [vm_compute; reflexivity|]].
  exact (proj1 (sanitised_value_is_stable (lit "12")
                  {| integer := true; preventEmpty := true; percents := true |}
                  eq_refl) _).
Defined.

(** X3. With [integer] off, a non-empty value made of white space only
    becomes ["0"]: [Number] reads it as zero. *)
Theorem blank_value_without_integer_flag (value : jsstring)
    (o : NumericInputOptions) :
  integer o = false ->
  value <> [] ->
  List.forallb is_ws value = true ->
  applyNumericCompliance value o = lit "0".
Proof.
  intros Hi Hne Hw. unfold applyNumericCompliance. rewrite Hi.
  destruct value as [|c s]; [contradiction|]. cbn [is_empty negb orb].
  now rewrite (Number_blank_string (c :: s) Hw).
Qed.

Lemma blank_value_without_integer_flag_witness :
  integer {| integer := false; preventEmpty := false; percents := false |} = false
  /\ List.forallb is_ws [32; 9; 160]%N = true
  /\ applyNumericCompliance [32; 9; 160]%N
       {| integer := false; preventEmpty := false; percents := false |}
     = lit "0".
Proof.
  split; [reflexivity|split; [reflexivity|]].
  apply (blank_value_without_integer_flag [32; 9; 160]%N
           {| integer := false; preventEmpty := false; percents := false |});
    [reflexivity|discriminate|reflexivity].
Defined.

(** ** Length restriction *)

(** X4. A [maxLength] that is unbound or 0 cuts nothing; a negative
    [maxLength] cuts every value down to the empty string before the numeric
    step; a value no longer than [maxLength] is not cut. *)
Theorem processInputValue_maxLength_edges (error_value : Type)
    (c : InputComponent error_value) (value : jsstring) :
  (maxLength c = None \/ maxLength c = Some 0 ->
   processInputValue c value
   = match numeric c with
     | Some o => applyNumericCompliance value o
     | None => value
     end)
  /\ (forall m, maxLength c = Some m -> m < 0 ->
      processInputValue c value
      = match numeric c with
        | Some o => if preventEmpty o then lit "0" else []
        | None => []
        end)
  /\ (forall m, maxLength c = Some m -> Z.of_nat (List.length value) <= m ->
      processInputValue c value
      = match numeric c with
        | Some o => applyNumericCompliance value o
        | None => value
        end).
Proof.
  unfold processInputValue. split; [|split].
  - intros [-> | ->]; reflexivity.
  - intros m -> Hm.
    replace (negb (m =? 0)) with true
      by (symmetry; apply negb_true_iff, Z.eqb_neq; lia).
    replace (Z.of_nat (List.length value) >? m) with true
      by (symmetry; rewrite Z.gtb_ltb; apply Z.ltb_lt; lia).
    cbn [andb]. unfold substr0.
    replace (Z.to_nat m) with 0%nat by lia. cbn [List.firstn].
    destruct (numeric c) as [o|]; [|reflexivity].
    apply (proj1 (applyNumericCompliance_no_digits o)).
  - intros m -> Hm.
    replace (Z.of_nat (List.length value) >? m) with false
      by (symmetry; rewrite Z.gtb_ltb; apply Z.ltb_ge; lia).
    now rewrite andb_false_r.
Qed.

(** X5. [processInputValue] is idempotent when [numeric] is not set, and
    in integer mode when [maxLength] lies between 1 and 15. *)
Theorem processInputValue_twice (error_value : Type)
    (c : InputComponent error_value) (value : jsstring) :
  (numeric c = None ->
   processInputValue c (processInputValue c value) = processInputValue c value)
  /\ (forall o m,
        numeric c = Some o -> integer o = true ->
        maxLength c = Some m -> 0 < m <= 15 ->
        processInputValue c (processInputValue c value)
        = processInputValue c value).
Proof.
  split.
  - apply processInputValue_again_plain.
  - intros o m. apply processInputValue_again_integer.
Qed.

(** ** The value pipeline *)

Lemma valueStream_next_fields (E : Type) (v : stream_value) (c : InputComponent E) :
  let c1 := fst (valueStream_next v c) in
  controlName c1 = controlName c
  /\ maxLength c1 = maxLength c
  /\ numeric c1 = numeric c
  /\ error c1 = error c
  /\ focused c1 = focused c
  /\ invalid c1 = invalid c
  /\ destroyed c1 = destroyed c
  /\ commitPending c1 = commitPending c
  /\ inputBlurOccured c1 = inputBlurOccured c
  /\ inputFocusOccured c1 = inputFocusOccured c
  /\ mouseDownOccured c1 = mouseDownOccured c
  /\ propagateChange c1 = propagateChange c.
Proof.
  cbv zeta. destruct (destroyed c) eqn:D.
  - rewrite (valueStream_next_closed E v c D). cbn [fst]. rewrite D. repeat split.
  - rewrite (valueStream_next_open E v c D). cbv zeta.
    destruct (str_eqb (currentValue c) _); cbn; rewrite ?D; repeat split.
Qed.

Lemma processInputValue_fields (E : Type) (c c1 : InputComponent E) (x : jsstring) :
  maxLength c1 = maxLength c -> numeric c1 = numeric c ->
  processInputValue c1 x = processInputValue c x.
Proof. intros Hm Hn. unfold processInputValue. now rewrite Hm, Hn. Qed.

Lemma valueStream_next_stored (E : Type) (v : stream_value) (c : InputComponent E) :
  destroyed c = false ->
  let c1 := fst (valueStream_next v c) in
  currentValue c1 = processInputValue c (valueToString v)
  /\ elementValue c1
     = (if negb (truthy (focused c))
        then getDecoratedValue (processInputValue c (valueToString v)) (numeric c)
        else processInputValue c (valueToString v)).
Proof.
  intros D. cbv zeta. rewrite (valueStream_next_open E v c D). cbv zeta.
  destruct (str_eqb (currentValue c) _) eqn:Q; cbn; split; try reflexivity.
  now apply str_eqb_eq in Q.
Qed.

(** A value event whose processed value is already stored changes nothing
    in a component that shows it. *)
Lemma valueStream_next_settled (E : Type) (v : stream_value) (c : InputComponent E) :
  destroyed c = false ->
  currentValue c = processInputValue c (valueToString v) ->
  elementValue c
  = (if negb (truthy (focused c))
     then getDecoratedValue (processInputValue c (valueToString v)) (numeric c)
     else processInputValue c (valueToString v)) ->
  valueStream_next v c
  = (c, [SetInputValue (processInputValue c (valueToString v))
           (negb (truthy (focused c)))]).
Proof.
  intros D Hc He. rewrite (valueStream_next_open E v c D). cbv zeta.
  rewrite <- Hc, str_eqb_refl. rewrite Hc, <- He.
  destruct c; reflexivity.
Qed.

(** X6. The same value sent twice: the second event leaves the component
    as the first one left it, and propagates nothing. *)
Theorem value_event_repeated (error_value : Type) (v : stream_value)
    (c : InputComponent error_value) :
  let c1 := fst (valueStream_next v c) in
  fst (valueStream_next v c1) = c1
  /\ propagations (snd (valueStream_next v c1)) = [].
Proof.
  cbv zeta. destruct (destroyed c) eqn:D.
  - rewrite (valueStream_next_closed _ v c D). cbn [fst].
    rewrite (valueStream_next_closed _ v c D). now split.
  - pose proof (valueStream_next_fields _ v c) as F. cbv zeta in F.
    destruct F as (_ & Fm & Fn & _ & Ff & _ & Fd & _).
    destruct (valueStream_next_stored _ v c D) as [Sc Se].
    set (c1 := fst (valueStream_next v c)) in *.
    assert (P : processInputValue c1 (valueToString v)
                = processInputValue c (valueToString v))
      by now apply processInputValue_fields.
    rewrite (valueStream_next_settled _ v c1).
    + now split.
    + congruence.
    + congruence.
    + rewrite P, Ff, Fn. exact Se.
Qed.

(** X7. When the form writes the stored value back through [writeValue]
    and processing leaves that value as it is, the component does not change
    and nothing is propagated: the exchange with the form ends there. *)
Theorem stored_value_written_back (error_value : Type) (v : stream_value)
    (c : InputComponent error_value) :
  let c1 := fst (valueStream_next v c) in
  processInputValue c (currentValue c1) = currentValue c1 ->
  fst (valueStream_next (VString (currentValue c1)) c1) = c1
  /\ propagations (snd (valueStream_next (VString (currentValue c1)) c1)) = [].
Proof.
  cbv zeta. intros I. destruct (destroyed c) eqn:D.
  - rewrite (valueStream_next_closed _ v c D). cbn [fst].
    rewrite (valueStream_next_closed _ _ c D). now split.
  - pose proof (valueStream_next_fields _ v c) as F. cbv zeta in F.
    destruct F as (_ & Fm & Fn & _ & Ff & _ & Fd & _).
    destruct (valueStream_next_stored _ v c D) as [Sc Se].
    set (c1 := fst (valueStream_next v c)) in *.
    assert (P : processInputValue c1 (currentValue c1) = currentValue c1)
      by (rewrite (processInputValue_fields _ c c1); assumption).
    rewrite (valueStream_next_settled _ (VString (currentValue c1)) c1);
      cbn [valueToString].
    + now split.
    + congruence.
    + now rewrite P.
    + rewrite P, Ff, Fn, Se, <- Sc. reflexivity.
Qed.

(** X8. A value event leaves the focus state, the three occurrence flags
    and the pending commit untouched, and calls neither [focus()] nor
    [detectChanges()]. *)
Theorem value_event_keeps_interaction_state (error_value : Type)
    (v : stream_value) (c : InputComponent error_value) :
  let c1 := fst (valueStream_next v c) in
  focused c1 = focused c
  /\ mouseDownOccured c1 = mouseDownOccured c
  /\ inputFocusOccured c1 = inputFocusOccured c
  /\ inputBlurOccured c1 = inputBlurOccured c
  /\ commitPending c1 = commitPending c
  /\ (forall call, In call (snd (valueStream_next v c)) ->
      call <> ElementFocus /\ call <> DetectChanges).
Proof.
  pose proof (valueStream_next_fields _ v c) as F. cbv zeta in *.
  destruct F as (_ & _ & _ & _ & Ff & _ & _ & Fp & Fb & Fo & Fm & _).
  repeat split; try assumption.
  - destruct (destroyed c) eqn:D.
    + rewrite (valueStream_next_closed _ v c D) in H. destruct H.
    + rewrite (valueStream_next_open _ v c D) in H. cbv zeta in H.
      destruct (str_eqb (currentValue c) _); cbn in H.
      * destruct H as [<-|[]]. discriminate.
      * destruct (propagateChange c); cbn in H;
          repeat (destruct H as [<-|H]; [discriminate|]); destruct H.
  - destruct (destroyed c) eqn:D.
    + rewrite (valueStream_next_closed _ v c D) in H. destruct H.
    + rewrite (valueStream_next_open _ v c D) in H. cbv zeta in H.
      destruct (str_eqb (currentValue c) _); cbn in H.
      * destruct H as [<-|[]]. discriminate.
      * destruct (propagateChange c); cbn in H;
          repeat (destruct H as [<-|H]; [discriminate|]); destruct H.
Qed.

(** X9. While the component is focused and its subscriptions are open,
    typing leaves the processed text, undecorated, in the input element, and
    that text is the stored value. *)
Theorem typing_while_focused (error_value : Type) (typed : jsstring)
    (c : InputComponent error_value) :
  destroyed c = false ->
  truthy (focused c) = true ->
  let c1 := fst (onInputElementInput typed c) in
  elementValue c1 = processInputValue c typed
  /\ currentValue c1 = processInputValue c typed.
Proof.
  intros D F. cbv zeta. unfold onInputElementInput.
  destruct (valueStream_next_stored _ (VString typed) (with_elementValue typed c) D)
    as [Sc Se].
  cbn [valueToString] in *. 
  change (focused (with_elementValue typed c)) with (focused c) in Se.
  rewrite F in Se. cbn [negb] in Se.
  split; [exact Se|exact Sc].
Qed.

(** ** Interaction state *)

(** X10. After [commitProperties] has run, running it again changes
    nothing and makes no call.  It never changes the stored value, the
    bound options, the error or the registered callback, and it propagates
    nothing. *)
Theorem commitProperties_settles (error_value : Type)
    (c : InputComponent error_value) :
  let c1 := fst (commitProperties c) in
  commitProperties c1 = (c1, [])
  /\ currentValue c1 = currentValue c
  /\ numeric c1 = numeric c
  /\ maxLength c1 = maxLength c
  /\ error c1 = error c
  /\ propagateChange c1 = propagateChange c
  /\ commitPending c1 = commitPending c
  /\ propagations (snd (commitProperties c)) = [].
Proof.
  cbv zeta. unfold commitProperties, setInputValue. component c. cbn.
  jsbools; destruct iv; cbn; repeat split.
Qed.

(** X11. When a mouse-down or a focus occurred and the component was not
    focused, or a blur occurred as well, [commitProperties] shows the stored
    value without decoration, focuses the element and detects changes.
    When the component was focused already and no blur occurred, it writes
    nothing. *)
Theorem focus_shows_the_stored_value (error_value : Type)
    (c : InputComponent error_value) :
  truthy (mouseDownOccured c) || truthy (inputFocusOccured c) = true ->
  (truthy (focused c) = false \/ truthy (inputBlurOccured c) = true ->
   truthy (focused (fst (commitProperties c))) = true
   /\ elementValue (fst (commitProperties c)) = currentValue c
   /\ snd (commitProperties c)
      = [SetInputValue (currentValue c) false; ElementFocus; DetectChanges])
  /\ (truthy (focused c) = true -> truthy (inputBlurOccured c) = false ->
      snd (commitProperties c) = []
      /\ elementValue (fst (commitProperties c)) = elementValue c
      /\ focused (fst (commitProperties c)) = focused c).
Proof.
  unfold commitProperties, setInputValue. component c. cbn.
  intros H. split.
  - intros [F|B]; jsbools; destruct iv; cbn in *;
      try discriminate; repeat split.
  - intros F B; jsbools; destruct iv; cbn in *;
      try discriminate; repeat split.
Qed.

(** X12. While [invalid] is set, [commitProperties] never decorates: a
    batch with only a blur shows the stored value as it is. *)
Theorem invalid_value_is_not_decorated (error_value : Type)
    (c : InputComponent error_value) :
  invalid c = true ->
  (forall value, ~ In (SetInputValue value true) (snd (commitProperties c)))
  /\ (truthy (mouseDownOccured c) = false ->
      truthy (inputFocusOccured c) = false ->
      truthy (inputBlurOccured c) = true ->
      elementValue (fst (commitProperties c)) = currentValue c
      /\ snd (commitProperties c)
         = [SetInputValue (currentValue c) false; DetectChanges]).
Proof.
  unfold commitProperties, setInputValue. component c. cbn.
  intros ->. split.
  - intros value; jsbools; cbn; intros H;
      repeat (destruct H as [H|H]; [discriminate H|]); destruct H.
  - intros M F B; jsbools; cbn in *; try discriminate; repeat split.
Qed.

(** ** Batches of DOM events *)

Lemma run_app (E : Type) (g : jsstring -> option E -> jsstring)
    (es es' : list (event E)) (c : InputComponent E) :
  run g (es ++ es') c
  = (fst (run g es' (fst (run g es c))),
     snd (run g es c) ++ snd (run g es' (fst (run g es c)))).
Proof.
  revert c. induction es as [|e es IH]; intros c; cbn [run app fst snd].
  - cbn [fst snd]. now destruct (run g es' c).
  - destruct (step g e c) as [c1 calls1]. rewrite (IH c1).
    destruct (run g es c1) as [c2 calls2]. cbn [fst snd].
    destruct (run g es' c2) as [c3 calls3]. cbn [fst snd].
    now rewrite app_assoc.
Qed.

Lemma run_interactions (E : Type) (g : jsstring -> option E -> jsstring)
    (es : list (event E)) :
  List.forallb is_interaction es = true ->
  forall c, destroyed c = false ->
    let flag p b := if List.existsb p es then Some true else b in
    run g es c
    = (with_subscriptions false
         (commitPending c || negb (match es with [] => true | _ => false end))
         (with_occurrences
            (flag (fun e => match e with HostElementMouseDown _ => true | _ => false end)
               (mouseDownOccured c))
            (flag (fun e => match e with InputElementBlur _ => true | _ => false end)
               (inputBlurOccured c))
            (flag (fun e => match e with InputElementFocus _ => true | _ => false end)
               (inputFocusOccured c))
            c),
       []).
Proof.
  cbv zeta.
  induction es as [|e es IH]; intros H c D.
  - cbn. component c. cbn in D. subst de. cbn.
    now rewrite orb_false_r.
  - cbn [List.forallb] in H. apply andb_true_iff in H as [He Hes].
    cbn [run]. destruct e; try discriminate He; cbn [step].
    + unfold onHostElementMouseDown, invalidateProperties.
      cbn. rewrite D. rewrite IH by (try assumption; reflexivity).
      component c. cbn.
      destruct (List.existsb _ es), (List.existsb _ es), (List.existsb _ es);
        repeat rewrite ?orb_true_r; destruct es; reflexivity.
    + unfold onInputElementBlur, invalidateProperties.
      cbn. rewrite D. rewrite IH by (try assumption; reflexivity).
      component c. cbn.
      destruct (List.existsb _ es), (List.existsb _ es), (List.existsb _ es);
        repeat rewrite ?orb_true_r; destruct es; reflexivity.
    + unfold onInputElementFocus, invalidateProperties.
      cbn. rewrite D. rewrite IH by (try assumption; reflexivity).
      component c. cbn.
      destruct (List.existsb _ es), (List.existsb _ es), (List.existsb _ es);
        repeat rewrite ?orb_true_r; destruct es; reflexivity.
Qed.

Lemma receives_focus_split (E : Type) (es : list (event E)) :
  List.existsb receives_focus es
  = List.existsb (fun e => match e with HostElementMouseDown _ => true | _ => false end) es
    || List.existsb (fun e => match e with InputElementFocus _ => true | _ => false end) es.
Proof.
  induction es as [|e es IH]; [reflexivity|].
  cbn [List.existsb]. rewrite IH.
  destruct e; cbn; try reflexivity.
  - now rewrite orb_true_r.
Qed.

Lemma interaction_occurs (E : Type) (es : list (event E)) :
  es <> [] -> List.forallb is_interaction es = true ->
  List.existsb (fun e => match e with HostElementMouseDown _ => true | _ => false end) es
  || List.existsb (fun e => match e with InputElementFocus _ => true | _ => false end) es
  || List.existsb (fun e => match e with InputElementBlur _ => true | _ => false end) es
  = true.
Proof.
  destruct es as [|e es]; [congruence|]. intros _ H.
  cbn [List.forallb] in H. apply andb_true_iff in H as [He _].
  cbn [List.existsb]. destruct e; try discriminate He; cbn;
    now rewrite ?orb_true_r.
Qed.

Lemma blur_occurs (E : Type) (es : list (event E)) :
  In (InputElementBlur E) es ->
  List.existsb (fun e => match e with InputElementBlur _ => true | _ => false end) es
  = true.
Proof.
  intros H. apply existsb_exists. exists (InputElementBlur E). now split.
Qed.

(** X13. A batch of mouse-down, focus and blur events between two runs of
    the debounce timer makes no call by itself.  When the timer elapses the
    component is focused exactly when the batch held a mouse-down or a
    focus, in any order: a blur that follows a focus in the same batch does
    not unfocus it.  The stored value is unchanged, and the element is
    either left alone or rewritten once, with the stored value, decorated
    only when unfocused and not invalid; it is rewritten whenever the batch
    held a blur or changed the focus state. *)
Theorem batch_of_interactions (error_value : Type)
    (getErrorMessage : jsstring -> option error_value -> jsstring)
    (es : list (event error_value)) (c : InputComponent error_value) :
  es <> [] ->
  List.forallb is_interaction es = true ->
  destroyed c = false ->
  truthy (mouseDownOccured c) = false ->
  truthy (inputFocusOccured c) = false ->
  truthy (inputBlurOccured c) = false ->
  let c1 := fst (run getErrorMessage (es ++ [DebounceElapsed error_value]) c) in
  let calls := snd (run getErrorMessage (es ++ [DebounceElapsed error_value]) c) in
  let focus := List.existsb receives_focus es in
  let written :=
    [SetInputValue (currentValue c) (negb focus && negb (invalid c))]
      ++ (if focus then [ElementFocus] else []) ++ [DetectChanges] in
  snd (run getErrorMessage es c) = []
  /\ truthy (focused c1) = focus
  /\ currentValue c1 = currentValue c
  /\ commitPending c1 = false
  /\ (calls = [] /\ elementValue c1 = elementValue c /\ focused c1 = focused c
      \/ calls = written
         /\ elementValue c1
            = if focus || invalid c then currentValue c
              else getDecoratedValue (currentValue c) (numeric c))
  /\ (In (InputElementBlur error_value) es -> calls = written)
  /\ (truthy (focused c) <> focus -> calls = written).
Proof.
  intros N I D M F B. cbv zeta.
  rewrite run_app. rewrite (run_interactions _ getErrorMessage es I c D).
  cbv zeta. cbn [fst snd app run step].
  pose proof (interaction_occurs _ es N I) as O.
  rewrite (receives_focus_split _ es).
  assert (Bl : In (InputElementBlur error_value) es ->
               List.existsb (fun e => match e with InputElementBlur _ => true | _ => false end) es
               = true) by apply blur_occurs.
  destruct es as [|e0 es0]; [congruence|].
  set (es := e0 :: es0) in *.
  destruct (List.existsb _ es) eqn:Emd;
  destruct (List.existsb (fun e => match e with InputElementFocus _ => true | _ => false end) es) eqn:Efo;
  destruct (List.existsb (fun e => match e with InputElementBlur _ => true | _ => false end) es) eqn:Ebl;
    try discriminate O;
    unfold debounceElapsed, commitProperties, setInputValue;
    component c; cbn in D, M, F, B |- *; subst de; rewrite ?orb_true_r; cbn;
    jsbools; cbn in *; try discriminate;
    destruct iv; cbn;
    (split; [reflexivity|]); (split; [reflexivity|]); (split; [reflexivity|]);
    (split; [reflexivity|]);
    (split; [first [right; split; reflexivity | left; split; [|split]; reflexivity]|]);
    (split; [intros K; first [reflexivity | specialize (Bl K); discriminate Bl]|]);
    intros K; first [reflexivity | exfalso; apply K; reflexivity].
Qed.

(** ** After [ngOnDestroy] *)

Lemma step_closed (E : Type) (g : jsstring -> option E -> jsstring)
    (e : event E) (c : InputComponent E) :
  destroyed c = true ->
  destroyed (fst (step g e c)) = true
  /\ List.forallb is_dom_call (snd (step g e c)) = true
  /\ currentValue (fst (step g e c)) = currentValue c
  /\ focused (fst (step g e c)) = focused c.
Proof.
  intros D. destruct e; cbn [step fst snd List.forallb is_dom_call andb].
  - now cbn.
  - unfold ngOnChanges.
    destruct (changes_numeric changes) as [cur|];
      destruct (changes_value changes) as [v|];
      rewrite ?valueStream_next_closed by exact D;
      cbn [fst snd]; unfold invalidateProperties; cbn; rewrite D; now cbn.
  - rewrite ngDoCheck_frame. now cbn.
  - now cbn.
  - unfold writeValue. rewrite valueStream_next_closed by exact D. now cbn.
  - now cbn.
  - now cbn.
  - now cbn.
  - unfold onHostElementMouseDown, invalidateProperties. cbn. rewrite D. now cbn.
  - unfold onInputElementBlur, invalidateProperties. cbn. rewrite D. now cbn.
  - unfold onInputElementFocus, invalidateProperties. cbn. rewrite D. now cbn.
  - unfold onInputElementInput.
    rewrite valueStream_next_closed by exact D. now cbn.
  - now cbn.
  - unfold debounceElapsed. rewrite D, andb_false_r. now cbn.
Qed.

Lemma run_closed (E : Type) (g : jsstring -> option E -> jsstring)
    (es : list (event E)) (c : InputComponent E) :
  destroyed c = true ->
  destroyed (fst (run g es c)) = true
  /\ List.forallb is_dom_call (snd (run g es c)) = true
  /\ currentValue (fst (run g es c)) = currentValue c
  /\ focused (fst (run g es c)) = focused c.
Proof.
  revert c. induction es as [|e es IH]; intros c D; cbn [run].
  - now cbn.
  - destruct (step_closed E g e c D) as (D1 & C1 & V1 & F1).
    destruct (step g e c) as [c1 calls1]. cbn [fst snd] in *.
    destruct (IH c1 D1) as (D2 & C2 & V2 & F2).
    destruct (run g es c1) as [c2 calls2]. cbn [fst snd] in *.
    rewrite forallb_app, C1, C2. repeat split; congruence.
Qed.

(** X14. After [ngOnDestroy], whatever events follow, the component
    writes nothing to the input element, propagates and emits nothing, and
    calls neither [focus()] nor [detectChanges()]: only [select()] and
    [stopImmediatePropagation()] are still called.  The stored value and
    the focus state stay as they were. *)
Theorem destroyed_component_is_inert (error_value : Type)
    (getErrorMessage : jsstring -> option error_value -> jsstring)
    (es : list (event error_value)) (c : InputComponent error_value) :
  let r := run getErrorMessage (NgOnDestroy error_value :: es) c in
  List.forallb is_dom_call (snd r) = true
  /\ propagations (snd r) = []
  /\ currentValue (fst r) = currentValue c
  /\ focused (fst r) = focused c
  /\ destroyed (fst r) = true.
Proof.
  cbv zeta. cbn [run step].
  destruct (run_closed _ getErrorMessage es (ngOnDestroy c) eq_refl)
    as (D & C & V & F).
  destruct (run getErrorMessage es (ngOnDestroy c)) as [c2 calls2].
  cbn [fst snd app] in *. repeat split; try assumption.
  unfold propagations. clear -C.
  induction calls2 as [|x xs IH]; [reflexivity|].
  cbn [List.forallb] in C. apply andb_true_iff in C as [Cx Cxs].
  cbn [List.filter]. destruct x; try discriminate Cx; cbn; now apply IH.
Qed.

(** ** Bound inputs *)

(** X15. When [numeric] and [value] change together, [ngOnChanges] merges
    the new options first: the value is processed and decorated with the
    new options, and a commit is pending afterwards.  Options bound without
    an [integer] key are in integer mode. *)
Theorem ngOnChanges_new_options_first (error_value : Type)
    (b : option NumericInputBinding) (v : stream_value)
    (c : InputComponent error_value) :
  destroyed c = false ->
  let c1 := fst (ngOnChanges {| changes_numeric := Some b;
                                changes_value := Some v |} c) in
  numeric c1 = option_map merge_defaults b
  /\ currentValue c1 = processInputValue c1 (valueToString v)
  /\ elementValue c1
     = (if truthy (focused c) then currentValue c1
        else getDecoratedValue (currentValue c1) (numeric c1))
  /\ commitPending c1 = true
  /\ (forall b0, b = Some b0 -> bound_integer b0 = None ->
      option_map integer (numeric c1) = Some true).
Proof.
  intros D. cbv zeta. unfold ngOnChanges. cbn [changes_numeric changes_value].
  set (c0 := with_inputs (controlName c) (maxLength c)
               match b with Some b0 => Some (merge_defaults b0) | None => None end c).
  assert (D0 : destroyed c0 = false) by exact D.
  pose proof (valueStream_next_fields _ v c0) as F. cbv zeta in F.
  destruct F as (_ & Fm & Fn & _ & Ff & _ & Fd & _).
  destruct (valueStream_next_stored _ v c0 D0) as [Sc Se].
  destruct (valueStream_next v c0) as [c1 calls]. cbn [fst snd] in *.
  unfold invalidateProperties. rewrite Fd, D0.
  set (c2 := with_subscriptions false true c1).
  assert (P : processInputValue c2 (valueToString v)
              = processInputValue c0 (valueToString v))
    by (apply processInputValue_fields; assumption).
  change (numeric c2) with (numeric c1).
  change (currentValue c2) with (currentValue c1).
  change (elementValue c2) with (elementValue c1).
  assert (N : numeric c1 = option_map merge_defaults b)
    by (rewrite Fn; subst c0; now destruct b).
  split; [exact N|].
  split; [congruence|].
  split.
  - rewrite Se, Sc, Fn.
    change (focused c0) with (focused c). now destruct (truthy (focused c)).
  - split; [reflexivity|].
    intros b0 -> I. rewrite N. cbn. now rewrite I.
Qed.

(** ** Empty values *)

Lemma digits_of_acc (fuel : nat) (z : Z) (acc : jsstring) :
  acc <> [] -> digits_of fuel z acc <> [].
Proof.
  revert z acc. induction fuel as [|f IH]; intros z acc H; cbn [digits_of].
  - exact H.
  - destruct (z <? 10); [discriminate|]. apply IH. discriminate.
Qed.

Lemma decimal_digits_nonempty (z : Z) : decimal_digits z <> [].
Proof.
  unfold decimal_digits, bits. cbn [digits_of].
  destruct (z <? 10); [discriminate|]. apply digits_of_acc. discriminate.
Qed.

Lemma app_nonempty_l (A : Type) (a b : list A) : a <> [] -> a ++ b <> [].
Proof. destruct a; [congruence|discriminate]. Qed.

Lemma app_nonempty_r (A : Type) (a b : list A) : b <> [] -> a ++ b <> [].
Proof. destruct a; [now cbn|discriminate]. Qed.

Lemma format_decimal_nonempty (s p : Z) : format_decimal s p <> [].
Proof.
  unfold format_decimal. cbv zeta.
  pose proof (decimal_digits_nonempty s) as H.
  destruct (_ && _).
  - now apply app_nonempty_l.
  - destruct (_ && _).
    + apply app_nonempty_r. discriminate.
    + destruct (_ && _).
      * discriminate.
      * destruct (_ =? 1).
        -- now apply app_nonempty_l.
        -- apply app_nonempty_r. discriminate.
Qed.

Lemma Number_toString_nonempty (x : number) : Number_toString x <> [].
Proof.
  destruct x as [s| [|] | |s m e]; try discriminate.
  cbn [Number_toString]. destruct (shortest m e) as [d p].
  apply app_nonempty_r, format_decimal_nonempty.
Qed.

(** X16. The sanitised value is empty exactly when [preventEmpty] is off
    and nothing is left to read: no character, or no digit in integer mode.
    With [preventEmpty] set, the stored value of an open component is not
    empty after a value event. *)
Theorem empty_only_without_preventEmpty (value : jsstring)
    (o : NumericInputOptions) :
  (applyNumericCompliance value o = []
   <-> preventEmpty o = false
       /\ (if integer o then strip_non_digits value else value) = [])
  /\ (forall (error_value : Type) (c : InputComponent error_value) v,
        destroyed c = false -> numeric c = Some o -> preventEmpty o = true ->
        currentValue (fst (valueStream_next v c)) <> []).
Proof.
  assert (A : applyNumericCompliance value o = []
              <-> preventEmpty o = false
                  /\ (if integer o then strip_non_digits value else value) = []).
  { unfold applyNumericCompliance. cbv zeta.
    set (p := if integer o then strip_non_digits value else value).
    destruct p as [|x p]; cbn [is_empty negb orb].
    - destruct (preventEmpty o).
      + split; [intros H; now apply Number_toString_nonempty in H|].
        intros [H _]; discriminate H.
      + now split.
    - split; [intros H; now apply Number_toString_nonempty in H|].
      intros [_ H]; discriminate H. }
  split; [exact A|].
  intros E c v D N P.
  destruct (valueStream_next_stored _ v c D) as [Sc _]. rewrite Sc.
  unfold processInputValue. rewrite N.
  unfold applyNumericCompliance. cbv zeta. rewrite P, orb_true_r.
  apply Number_toString_nonempty.
Qed.

(** ** The further properties on concrete inputs *)

Lemma stored_value_written_back_witness :
  let c := percentField unit in
  let c1 := fst (valueStream_next (VString (lit "5 apples")) c) in
  currentValue c1 = lit "5"
  /\ processInputValue c (currentValue c1) = currentValue c1
  /\ fst (valueStream_next (VString (currentValue c1)) c1) = c1
  /\ propagations (snd (valueStream_next (VString (currentValue c1)) c1)) = [].
Proof.
  cbv zeta.
  split; [vm_compute; reflexivity|].
  split; [vm_compute; reflexivity|].
  apply (stored_value_written_back unit (VString (lit "5 apples"))
           (percentField unit)).
  vm_compute; reflexivity.
Defined.

Lemma typing_while_focused_witness :
  let c := with_focused (Some true) (percentField unit) in
  destroyed c = false
  /\ truthy (focused c) = true
  /\ processInputValue c (lit "0x7") = lit "7"
  /\ elementValue (fst (onInputElementInput (lit "0x7") c))
     = processInputValue c (lit "0x7")
  /\ currentValue (fst (onInputElementInput (lit "0x7") c))
     = processInputValue c (lit "0x7").
Proof.
  cbv zeta.
  split; [reflexivity|].
  split; [reflexivity|].
  split; [vm_compute; reflexivity|].
  apply (typing_while_focused unit (lit "0x7")
           (with_focused (Some true) (percentField unit)));
    reflexivity.
Defined.

Lemma focus_shows_the_stored_value_witness :
  let c := onInputElementFocus (percentField unit) in
  truthy (mouseDownOccured c) || truthy (inputFocusOccured c) = true
  /\ truthy (focused c) = false
  /\ elementValue c = lit "12%"
  /\ elementValue (fst (commitProperties c)) = lit "12"
  /\ snd (commitProperties c)
     = [SetInputValue (currentValue c) false; ElementFocus; DetectChanges].
Proof.
  cbv zeta.
  split; [reflexivity|].
  split; [reflexivity|].
  split; [vm_compute; reflexivity|].
  pose proof (proj1 (focus_shows_the_stored_value unit
                       (onInputElementFocus (percentField unit)) eq_refl)
                (or_introl eq_refl)) as (_ & He & Hc).
  split; [rewrite He; vm_compute; reflexivity|exact Hc].
Defined.

Lemma invalid_value_is_not_decorated_witness :
  let c := onInputElementBlur (with_invalid true (percentField unit)) in
  invalid c = true
  /\ currentValue c = lit "12"
  /\ elementValue (fst (commitProperties c)) = currentValue c
  /\ snd (commitProperties c)
     = [SetInputValue (currentValue c) false; DetectChanges].
Proof.
  cbv zeta.
  split; [reflexivity|].
  split; [vm_compute; reflexivity|].
  exact (proj2 (invalid_value_is_not_decorated unit
                  (onInputElementBlur (with_invalid true (percentField unit)))
                  eq_refl) eq_refl eq_refl eq_refl).
Defined.

Lemma batch_of_interactions_witness :
  let es := [InputElementFocus unit; InputElementBlur unit] in
  let c := percentField unit in
  List.forallb is_interaction es = true
  /\ destroyed c = false
  /\ truthy (mouseDownOccured c) = false
  /\ truthy (inputFocusOccured c) = false
  /\ truthy (inputBlurOccured c) = false
  /\ snd (run (fun _ _ => []) es c) = []
  /\ truthy (focused (fst (run (fun _ _ => [])
                             (es ++ [DebounceElapsed unit]) c)))
     = true.
Proof.
  cbv zeta.
  split; [reflexivity|].
  split; [reflexivity|].
  split; [reflexivity|].
  split; [reflexivity|].
  split; [reflexivity|].
  pose proof (batch_of_interactions unit (fun _ _ => [])
                [InputElementFocus unit; InputElementBlur unit]
                (percentField unit)
                ltac:(discriminate) eq_refl eq_refl eq_refl eq_refl eq_refl)
    as H.
  cbv zeta in H. destruct H as (H1 & H2 & _).
  split; [exact H1|exact H2].
Defined.

Lemma ngOnChanges_new_options_first_witness :
  let changes :=
    {| changes_numeric :=
         Some (Some {| bound_integer := None;
                       bound_preventEmpty := false;
                       bound_percents := true |});
       changes_value := Some (VString (lit "1a2")) |} in
  destroyed (created unit) = false
  /\ currentValue (fst (ngOnChanges changes (created unit))) = lit "12"
  /\ elementValue (fst (ngOnChanges changes (created unit))) = lit "12%"
  /\ commitPending (fst (ngOnChanges changes (created unit))) = true
  /\ option_map integer (numeric (fst (ngOnChanges changes (created unit))))
     = Some true.
Proof.
  cbv zeta.
  split; [reflexivity|].
  split; [vm_compute; reflexivity|].
  split; [vm_compute; reflexivity|].
  pose proof (ngOnChanges_new_options_first unit
                (Some {| bound_integer := None;
                         bound_preventEmpty := false;
                         bound_percents := true |})
                (VString (lit "1a2")) (created unit) eq_refl) as H.
  cbv zeta in H. destruct H as (_ & _ & _ & Hp & Hi).
  split; [exact Hp|exact (Hi _ eq_refl eq_refl)].
Defined.
